(** * LSIDResolver: a shallow embedding of [src/LSIDResolver.py]

    The development follows the layout of the Python module:

    - [PyStr]: the few [str] operations the resolver relies on
      ([split], [s[-1]], [s[:-1]], [str(int)]);
    - [Regex]: regular expressions with a derivative matcher, used for the
      LSID pattern of [Resolver.validate_lsid] and for the EXSLT
      [re:test] predicates of the XPath queries;
    - [Xml]: element trees and the three XPath queries of the module;
    - the process state (the attributes of the objects, the class attribute
      [Cache._instance], the files, the clock, and the trace of console
      lines, DNS queries and HTTP requests) with a state and exception
      monad;
    - [Singleton], [Cache], [Authority], [Service] and [Resolver], one
      definition per method, in the order of the source;
    - [Grammar]: the LSID grammar by colon separated fields;
    - [Sample]: the documents and processes of the examples;
    - the theorems: the matcher, the language of the LSID pattern, and
      then the methods, class by class.

    Python [str] and [bytes] values are modelled by [string]: a sequence of
    code points in the range U+0000..U+00FF. *)

From Stdlib Require Import ZArith NArith Ascii String DecimalString DecimalPos DecimalN.
From stdpp Require Import gmap strings list.

Local Open Scope string_scope.
Local Open Scope list_scope.
Set Warnings "-register-all".

Abbreviation bytes := string.

(** ** Python string operations *)

Module PyStr.

Definition chars (s : string) : list ascii := list_ascii_of_string s.
Definition of_chars (l : list ascii) : string := string_of_list_ascii l.

(** [sep.join]-free core of [str.split(sep)] for a one character
    separator: the fields between the occurrences of [sep]. *)
Fixpoint split_chars (sep : ascii) (l : list ascii) : list (list ascii) :=
  match l with
  | [] => [[]]
  | c :: l' =>
      if Ascii.eqb c sep then [] :: split_chars sep l'
      else match split_chars sep l' with
           | f :: fs => (c :: f) :: fs
           | [] => [[c]]
           end
  end.

Definition split (sep : ascii) (s : string) : list string :=
  map of_chars (split_chars sep (chars s)).

(** [s[-1]]: [None] stands for the [IndexError] of an empty string. *)
Definition last_char (s : string) : option ascii := last (chars s).

(** [s[:-1]] *)
Definition drop_last (s : string) : string := of_chars (removelast (chars s)).

(** [str(n)] for a non-negative integer. *)
Definition str_of_N (n : N) : string := NilZero.string_of_uint (N.to_uint n).

(** Truthiness of a [str] or [bytes] object. *)
Definition truthy (s : string) : bool :=
  match s with EmptyString => false | String _ _ => true end.

End PyStr.

(** ** Regular expressions *)

Module Regex.

Inductive re : Type :=
| Void
| Eps
| Cls (p : ascii -> bool)
| Cat (r1 r2 : re)
| Alt (r1 r2 : re)
| Star (r : re).

Fixpoint nullable (r : re) : bool :=
  match r with
  | Void => false
  | Eps => true
  | Cls _ => false
  | Cat r1 r2 => nullable r1 && nullable r2
  | Alt r1 r2 => nullable r1 || nullable r2
  | Star _ => true
  end.

Fixpoint deriv (c : ascii) (r : re) : re :=
  match r with
  | Void => Void
  | Eps => Void
  | Cls p => if p c then Eps else Void
  | Cat r1 r2 =>
      if nullable r1 then Alt (Cat (deriv c r1) r2) (deriv c r2)
      else Cat (deriv c r1) r2
  | Alt r1 r2 => Alt (deriv c r1) (deriv c r2)
  | Star r1 => Cat (deriv c r1) (Star r1)
  end.

(** The whole of [s] is a word of [r]. *)
Fixpoint fullmatch (r : re) (s : list ascii) : bool :=
  match s with
  | [] => nullable r
  | c :: s' => fullmatch (deriv c r) s'
  end.

Inductive matches : re -> list ascii -> Prop :=
| MEps : matches Eps []
| MCls p c : p c = true -> matches (Cls p) [c]
| MCat r1 r2 s1 s2 :
    matches r1 s1 -> matches r2 s2 -> matches (Cat r1 r2) (s1 ++ s2)
| MAltL r1 r2 s : matches r1 s -> matches (Alt r1 r2) s
| MAltR r1 r2 s : matches r2 s -> matches (Alt r1 r2) s
| MStar0 r : matches (Star r) []
| MStarS r s1 s2 :
    matches r s1 -> matches (Star r) s2 -> matches (Star r) (s1 ++ s2).

(** Pattern building blocks. *)
Definition chr (c : ascii) : re := Cls (Ascii.eqb c).
Definition opt (r : re) : re := Alt Eps r.
Definition any : re := Cls (fun _ => true).
Fixpoint lit (l : list ascii) : re :=
  match l with
  | [] => Eps
  | c :: l' => Cat (chr c) (lit l')
  end.

(** A pattern end [$] (no [MULTILINE] flag) holds at the end of the
    subject and just before a line feed that is its last character.  At the
    end of a pattern it is therefore the optional line feed below, followed
    by the real end of the subject. *)
Definition dollar : re := opt (chr "010"%char).

End Regex.

(** ** XML element trees and the XPath queries of the module *)

Module Xml.

Record qname : Type := QName { ns : string; local : string }.

Definition qname_eqb (a b : qname) : bool :=
  String.eqb (ns a) (ns b) && String.eqb (local a) (local b).

(** An [lxml] element: tag, attributes, child elements in document
    order. *)
Inductive element : Type :=
| Element (tag : qname) (attrib : gmap string string) (children : list element).

Definition tag (e : element) : qname := let 'Element t _ _ := e in t.
Definition attrib (e : element) : gmap string string := let 'Element _ a _ := e in a.
Definition children (e : element) : list element := let 'Element _ _ c := e in c.

(** [node.get(name)] *)
Definition get (e : element) (name : string) : option string := attrib e !! name.

(** [NAMESPACES] *)
Definition ns_wsdl : string := "http://schemas.xmlsoap.org/wsdl/".
Definition ns_http : string := "http://schemas.xmlsoap.org/wsdl/http/".

(** The child axis with a name test [prefix:name]. *)
Definition child_named (q : qname) (e : element) : list element :=
  filter (fun c => qname_eqb (tag c) q = true) (children e).

(** The child axis with [*[local-name()='name']]. *)
Definition child_local (name : string) (e : element) : list element :=
  filter (fun c => String.eqb (local (tag c)) name = true) (children e).

(** [re:test(@binding, 'suffix$')]: the EXSLT function of [lxml] calls
    [re.search] on the string value of the attribute, the empty string
    when the attribute is missing. *)
Definition re_test_suffix (suffix : string) (e : element) : bool :=
  Regex.fullmatch
    (Regex.Cat (Regex.Star Regex.any)
       (Regex.Cat (Regex.lit (PyStr.chars suffix)) Regex.dollar))
    (PyStr.chars (default "" (get e "binding"))).

(** [wsdl:service/wsdl:port[re:test(@binding, 'suffix$')]], from the
    context node [wsdl]. *)
Definition ports (suffix : string) (wsdl : element) : list element :=
  flat_map
    (fun s => filter (fun p => re_test_suffix suffix p = true)
                (child_named (QName ns_wsdl "port") s))
    (child_named (QName ns_wsdl "service") wsdl).

(** [.../*[local-name()='address']] of [Authority.extract_authority_url] *)
Definition xpath_authority (wsdl : element) : list element :=
  flat_map (child_local "address") (ports "LSIDAuthorityHTTPBinding" wsdl).

(** [.../http:address] of [Service.extract_service_url] *)
Definition xpath_data (wsdl : element) : list element :=
  flat_map (child_named (QName ns_http "address")) (ports ":LSIDDataHTTPBinding" wsdl).

Definition xpath_metadata (wsdl : element) : list element :=
  flat_map (child_named (QName ns_http "address")) (ports ":LSIDMetadataHTTPBinding" wsdl).

End Xml.

(** ** Values, exceptions, events *)

Inductive pyval : Type :=
| PyNone
| PyBool (b : bool)
| PyStr (s : string)
| PyBytes (b : bytes).

(** [bool(v)] *)
Definition truthy (v : pyval) : bool :=
  match v with
  | PyNone => false
  | PyBool b => b
  | PyStr s | PyBytes s => PyStr.truthy s
  end.

Inductive exn_class : Type :=
| ValidationError | NoValueError | NoElementError
| ValueError | TypeError | AttributeError | IndexError
| XMLSyntaxError | URLError | SocketTimeout | DNSException.

Record exn : Type := Exn { exn_class_of : exn_class; exn_msg : string }.

(** What the process does to the outside: console output, DNS queries and
    HTTP requests, the latter with the [timeout] argument of [urlopen]
    ([None] when the call passes none). *)
Inductive event : Type :=
| Print (v : pyval)
| DnsQuery (qname rdtype : string)
| HttpGet (url : string) (timeout : option Z).

Definition is_network (e : event) : bool :=
  match e with Print _ => false | _ => true end.

(** ** The process state *)

Record srv_record : Type := SRV { target_text : string; port : N }.

Inductive dns_response : Type :=
| DnsAnswer (answers : list srv_record)
| DnsRaise (e : exn).

Inductive http_response : Type :=
| HttpBody (body : bytes)
| HttpRaise (e : exn)
| HttpHang.

Record network : Type := Network {
  dns_srv : string -> dns_response;
  http : string -> http_response }.

Record file : Type := File { content : bytes; mtime : Z }.

Record authority : Type := MkAuthority {
  url_part : option string;
  service_url : option string;
  service_port : option string;
  authority_url : option string }.

Record service : Type := MkService {
  data_url : option string;
  metadata_url : option string }.

(** One process running one [Resolver]: its attributes, the class attribute
    [Cache._instance] with the allocator of object identities, and the
    environment.  Times are in microseconds: [utc_clock] since the epoch,
    [utc_offset] the offset of local time from UTC. *)
Record state : Type := State {
  lsid : option string;
  authority_of : authority;
  service_of : service;
  Cache_instance : option nat;
  next_object : nat;
  fs : gmap string file;
  utc_clock : Z;
  utc_offset : Z;
  net : network;
  trace : list event }.

Definition set_lsid_field (v : option string) (st : state) : state :=
  State v (authority_of st) (service_of st) (Cache_instance st) (next_object st)
    (fs st) (utc_clock st) (utc_offset st) (net st) (trace st).
Definition set_authority (a : authority) (st : state) : state :=
  State (lsid st) a (service_of st) (Cache_instance st) (next_object st)
    (fs st) (utc_clock st) (utc_offset st) (net st) (trace st).
Definition set_service (s : service) (st : state) : state :=
  State (lsid st) (authority_of st) s (Cache_instance st) (next_object st)
    (fs st) (utc_clock st) (utc_offset st) (net st) (trace st).
Definition set_instance (o : option nat) (n : nat) (st : state) : state :=
  State (lsid st) (authority_of st) (service_of st) o n
    (fs st) (utc_clock st) (utc_offset st) (net st) (trace st).
Definition set_fs (m : gmap string file) (st : state) : state :=
  State (lsid st) (authority_of st) (service_of st) (Cache_instance st) (next_object st)
    m (utc_clock st) (utc_offset st) (net st) (trace st).
Definition set_clock (t : Z) (st : state) : state :=
  State (lsid st) (authority_of st) (service_of st) (Cache_instance st) (next_object st)
    (fs st) t (utc_offset st) (net st) (trace st).
Definition set_trace (tr : list event) (st : state) : state :=
  State (lsid st) (authority_of st) (service_of st) (Cache_instance st) (next_object st)
    (fs st) (utc_clock st) (utc_offset st) (net st) tr.

(** Time passes between two calls. *)
Definition advance (dt : Z) (st : state) : state := set_clock (utc_clock st + dt)%Z st.

Definition network_events (st : state) : list event := filter (fun e => is_network e = true) (trace st).

(** ** The monad of method bodies *)

Inductive outcome (A : Type) : Type :=
| Ret (a : A)
| Raise (e : exn)
| Blocked.
Arguments Ret {A} a.
Arguments Raise {A} e.
Arguments Blocked {A}.

Definition M (A : Type) : Type := state -> outcome A * state.

Definition ret {A} (a : A) : M A := fun st => (Ret a, st).
Definition raise {A} (c : exn_class) (msg : string) : M A := fun st => (Raise (Exn c msg), st).
Definition bind {A B} (m : M A) (k : A -> M B) : M B :=
  fun st =>
    match m st with
    | (Ret a, st') => k a st'
    | (Raise e, st') => (Raise e, st')
    | (Blocked, st') => (Blocked, st')
    end.

Declare Scope py_scope.
Delimit Scope py_scope with py.
Notation "x <- m ;; k" := (bind m (fun x => k))
  (at level 100, m at next level, right associativity) : py_scope.
Notation "m ;;; k" := (bind m (fun _ => k))
  (at level 100, right associativity) : py_scope.
Local Open Scope py_scope.

Definition get : M state := fun st => (Ret st, st).
Definition modify (f : state -> state) : M unit := fun st => (Ret tt, f st).
Definition emit (e : event) : M unit := modify (fun st => set_trace (trace st ++ [e]) st).

(** [print(v)] *)
Definition print (v : pyval) : M unit := emit (Print v).

(** The state after [print(line)]. *)
Definition said (line : string) (st : state) : state :=
  set_trace (trace st ++ [Print (PyStr line)]) st.

(** [try: body except classes as e: handler(e)] *)
Definition try_except {A} (body : M A) (catches : exn_class -> bool) (handler : exn -> M A) : M A :=
  fun st =>
    match body st with
    | (Raise e, st') => if catches (exn_class_of e) then handler e st' else (Raise e, st')
    | r => r
    end.

(** [for x in l: body(x)] *)
Fixpoint for_each {A} (l : list A) (body : A -> M unit) : M unit :=
  match l with
  | [] => ret tt
  | x :: l' => body x ;;; for_each l' body
  end.

(** An attribute used where a [str] is required: [None] raises. *)
Definition as_str (c : exn_class) (v : option string) : M string :=
  match v with
  | Some s => ret s
  | None => raise c "NoneType"
  end.

(** ** class Resolver: the LSID pattern *)

Module Pattern.
Import Regex.

Definition code (c : ascii) : N := N_of_ascii c.
Definition between (lo hi : N) (c : ascii) : bool :=
  (lo <=? code c)%N && (code c <=? hi)%N.

(** [[A-Za-z0-9]] *)
Definition alnum (c : ascii) : bool :=
  between 65 90 c || between 97 122 c || between 48 57 c.

(** [\w] of a [str] pattern: the alphanumeric code points and the
    underscore.  Below U+0100 the alphanumeric code points that are not
    ASCII are U+00AA, U+00B2, U+00B3, U+00B5, U+00B9, U+00BA,
    U+00BC..U+00BE, U+00C0..U+00D6, U+00D8..U+00F6 and U+00F8..U+00FF. *)
Definition word (c : ascii) : bool :=
  alnum c || Ascii.eqb c "_"
  || (code c =? 170)%N || between 178 179 c || (code c =? 181)%N
  || between 185 186 c || between 188 190 c
  || between 192 214 c || between 216 246 c || between 248 255 c.

Definition one_of (s : string) (c : ascii) : bool :=
  existsb (Ascii.eqb c) (PyStr.chars s).

(** The punctuation of the segment class: parentheses, plus, comma,
    hyphen, full stop, equals, at, semicolon, dollar, double quote
    (character 34), exclamation mark, asterisk and apostrophe. *)
Definition punct (c : ascii) : bool :=
  one_of "()+,-.=@;$!*'" c || Ascii.eqb c "034".

(** One segment: [[A-Za-z0-9]] and then any number of characters of
    [\w] or of the punctuation. *)
Definition tail_class (c : ascii) : bool := word c || punct c.

Definition segment : re :=
  Cat (Cls alnum) (Star (Cls tail_class)).

(** [[uU]] and the like *)
Definition either (a b : ascii) : re := Cls (fun c => Ascii.eqb c a || Ascii.eqb c b).

Definition colon : re := chr ":".

(** The pattern of [validate_lsid]; the leading [^] holds trivially for
    [re.match], which matches at the start of the subject. *)
Definition lsid_pattern : re :=
  Cat (either "u" "U") (Cat (either "r" "R") (Cat (either "n" "N") (Cat colon
  (Cat (either "l" "L") (Cat (either "s" "S") (Cat (either "i" "I") (Cat (either "d" "D") (Cat colon
  (Cat segment (Cat colon
  (Cat segment (Cat colon
  (Cat segment
  (Cat (opt (Cat colon segment))
  dollar)))))))))))))).

(** [re.match(pattern, s)] for a pattern that ends in [$], as a truth
    value. *)
Definition re_match (pattern : re) (s : string) : bool :=
  fullmatch pattern (PyStr.chars s).

End Pattern.

(** ** class Singleton, class CacheMixin *)

(** [Singleton.__call__] for [Cache]: the instance is created on the first
    call and kept in the class attribute. *)
Definition Singleton_call : M nat :=
  st <- get ;;
  match Cache_instance st with
  | None =>
      modify (set_instance (Some (next_object st)) (S (next_object st))) ;;;
      st' <- get ;;
      match Cache_instance st' with
      | Some o => ret o
      | None => raise AttributeError "_instance"
      end
  | Some o => ret o
  end.

(** The instance a call returns and the state it leaves. *)
Definition instance_of (st : state) : nat :=
  match Cache_instance st with Some o => o | None => next_object st end.

Definition with_instance (st : state) : state :=
  match Cache_instance st with
  | Some _ => st
  | None => set_instance (Some (next_object st)) (S (next_object st)) st
  end.

(** [CacheMixin.cache_instance]: a property of the owner [self], which
    the body does not use. *)
Definition cache_instance {Self : Type} (self : Self) : M nat := Singleton_call.

(** The method [m] leaves an instance [c] in the class attribute where it
    finds one. *)
Definition keeps (c : nat) {A : Type} (m : M A) : Prop :=
  forall st, Cache_instance st = Some c -> Cache_instance (m st).2 = Some c.

(** ** class Cache *)

Definition CACHE_TIME : Z := 172800.
Definition PATH : string := "cache/".

(** [datetime.utcnow()], [datetime.fromtimestamp(t)] and
    [timedelta(seconds=n)] on naive date-times, in microseconds. *)
Definition utcnow (st : state) : Z := utc_clock st.
Definition fromtimestamp (st : state) (t : Z) : Z := (t + utc_offset st)%Z.
Definition timedelta_seconds (n : Z) : Z := (n * 1000000)%Z.

Definition get_cache_expiration (self : nat) (file_date : Z) : M bool :=
  st <- get ;;
  let cache_valid := (utcnow st - timedelta_seconds CACHE_TIME)%Z in
  if (cache_valid <=? fromtimestamp st file_date)%Z then ret true else ret false.

Definition check_cache_file (self : nat) (service_name file_name : string) : M pyval :=
  let path := PATH +:+ service_name in
  let cache_file := path +:+ "/" +:+ file_name in
  st <- get ;;
  match fs st !! cache_file with
  | Some f =>
      valid <- get_cache_expiration self (mtime f) ;;
      if valid then ret (PyBytes (content f)) else ret (PyBool false)
  | None => ret (PyBool false)
  end.

(** [mkdir] leaves the files alone; [write_bytes] creates or replaces the
    file, whose modification time is the time of the write. *)
Definition store_cache_file (self : nat) (service_name file_name : string) (body : bytes) : M unit :=
  let path := PATH +:+ service_name in
  let cache_file := path +:+ "/" +:+ file_name in
  modify (fun st => set_fs (<[cache_file := File body (utc_clock st)]> (fs st)) st).

(** The key of an entry: the path of its file. *)
Definition cache_path (service_name file_name : string) : string :=
  (PATH +:+ service_name) +:+ "/" +:+ file_name.

(** The retention window in microseconds. *)
Definition retention : Z := timedelta_seconds CACHE_TIME.

(** ** Network and parser calls *)

(** [dns.resolver.query(qname, rdtype)] *)
Definition dns_query (qname rdtype : string) : M (list srv_record) :=
  emit (DnsQuery qname rdtype) ;;;
  st <- get ;;
  match dns_srv (net st) qname with
  | DnsAnswer l => ret l
  | DnsRaise e => fun st => (Raise e, st)
  end.

(** [urllib.request.urlopen(url, timeout=t).read()]: a peer that never
    answers raises [socket.timeout] when a timeout was given and blocks
    the call for ever when none was. *)
Definition urlopen_read (url : string) (timeout : option Z) : M bytes :=
  emit (HttpGet url timeout) ;;;
  st <- get ;;
  match http (net st) url with
  | HttpBody b => ret b
  | HttpRaise e => fun st => (Raise e, st)
  | HttpHang =>
      match timeout with
      | Some _ => raise SocketTimeout "timed out"
      | None => fun st => (Blocked, st)
      end
  end.

Section Methods.

(** [etree.fromstring]: the parser of [lxml], [None] standing for its
    [XMLSyntaxError]. *)
Variable fromstring : bytes -> option Xml.element.

Definition etree_fromstring (b : bytes) : M Xml.element :=
  match fromstring b with
  | Some e => ret e
  | None => raise XMLSyntaxError "Document is not well formed"
  end.

(** [etree.fromstring(file)] on the value of [check_cache_file], which is
    a [bytes] object on this path. *)
Definition etree_fromstring_val (v : pyval) : M Xml.element :=
  match v with
  | PyBytes b | PyStr b => etree_fromstring b
  | _ => raise ValueError "can only parse strings"
  end.

(** *** class Authority *)

Definition update_authority (f : authority -> authority) : M unit :=
  modify (fun st => set_authority (f (authority_of st)) st).

Definition set_url_part (v : option string) (a : authority) : authority :=
  MkAuthority v (service_url a) (service_port a) (authority_url a).
Definition set_service_url_field (v : option string) (a : authority) : authority :=
  MkAuthority (url_part a) v (service_port a) (authority_url a).
Definition set_service_port (v : option string) (a : authority) : authority :=
  MkAuthority (url_part a) (service_url a) v (authority_url a).
Definition set_authority_url (v : option string) (a : authority) : authority :=
  MkAuthority (url_part a) (service_url a) (service_port a) v.

(** The body of the loop of [set_service_url]. *)
Definition loop_body (dnsdata : srv_record) : M unit :=
  match PyStr.last_char (target_text dnsdata) with
  | None => raise IndexError "string index out of range"
  | Some c =>
      (if Ascii.eqb c "."
       then update_authority (set_service_url_field (Some (PyStr.drop_last (target_text dnsdata))))
       else update_authority (set_service_url_field (Some (target_text dnsdata)))) ;;;
      update_authority (set_service_port (Some (PyStr.str_of_N (port dnsdata)))) ;;;
      st <- get ;;
      target <- as_str TypeError (service_url (authority_of st)) ;;
      print (PyStr ("Service target: " +:+ target +:+ " | Port: "
                      +:+ PyStr.str_of_N (port dnsdata)))
  end.

Definition set_service_url : M unit :=
  st <- get ;;
  part <- as_str TypeError (url_part (authority_of st)) ;;
  answers <- dns_query ("_lsid._tcp." +:+ part) "SRV" ;;
  for_each answers loop_body ;;;
  st <- get ;;
  match service_url (authority_of st) with
  | Some (String _ _) => ret tt
  | _ => raise NoValueError "Error: Unable to parse the service URL in SRV record"
  end.

(** What the loop of [set_service_url] does for one record whose target
    text is not empty: the target without its final dot, the port as a
    string, one console line. *)
Definition strip_dot (t : string) : string :=
  match PyStr.last_char t with
  | Some c => if Ascii.eqb c "." then PyStr.drop_last t else t
  | None => t
  end.

Definition target_line (d : srv_record) : event :=
  Print (PyStr ("Service target: " +:+ strip_dot (target_text d) +:+ " | Port: "
                  +:+ PyStr.str_of_N (port d))).

Definition record_step (st : state) (d : srv_record) : state :=
  let a := set_service_port (Some (PyStr.str_of_N (port d)))
             (set_service_url_field (Some (strip_dot (target_text d))) (authority_of st)) in
  let st1 := set_authority a st in
  set_trace (trace st1 ++ [target_line d]) st1.

Definition no_service_location : exn :=
  Exn NoValueError "Error: Unable to parse the service URL in SRV record".

Definition get_authority_part (lsid : option string) : M unit :=
  lsid <- as_str AttributeError lsid ;;
  let components := PyStr.split ":" lsid in
  match components !! 2%nat with
  | None => raise IndexError "list index out of range"
  | Some part =>
      update_authority (set_url_part (Some part)) ;;;
      print (PyStr ("Authority part of LSID: " +:+ part)) ;;;
      set_service_url
  end.

Definition get_authority_url : M (option string) :=
  st <- get ;; ret (authority_url (authority_of st)).

Definition get_service_name : M (option string) :=
  st <- get ;; ret (url_part (authority_of st)).

Definition no_address_element : exn := Exn NoElementError "No authority address element found".
Definition no_binding_value : exn := Exn NoValueError "No HTTP binding in authority.wsdl found".
Definition none_in_concatenation : exn := Exn TypeError "NoneType".

Definition extract_authority_url (wsdl : Xml.element) : M unit :=
  node <- try_except
            (match Xml.xpath_authority wsdl with
             | [node] => ret node
             | _ => raise ValueError "wrong number of values to unpack"
             end)
            (fun c => match c with ValueError => true | _ => false end)
            (fun _ => raise NoElementError "No authority address element found") ;;
  update_authority (set_authority_url (Xml.get node "location")) ;;;
  location <- as_str TypeError (Xml.get node "location") ;;
  print (PyStr ("Authority binding: " +:+ location)) ;;;
  st <- get ;;
  match authority_url (authority_of st) with
  | Some (String _ _) => ret tt
  | _ => raise NoValueError "No HTTP binding in authority.wsdl found"
  end.

(** The state after the assignment and the console line of
    [extract_authority_url]. *)
Definition bound (v : string) (st : state) : state :=
  let st1 := set_authority (set_authority_url (Some v) (authority_of st)) st in
  set_trace (trace st1 ++ [Print (PyStr ("Authority binding: " +:+ v))]) st1.

Definition get_authority_wsdl : M unit :=
  st <- get ;;
  cache <- cache_instance (authority_of st) ;;
  part <- as_str TypeError (url_part (authority_of st)) ;;
  file <- check_cache_file cache part "authority.wsdl" ;;
  wsdl <-
    (if negb (truthy file) then
       print (PyStr "No authority.wsdl file cached or file expired") ;;;
       st <- get ;;
       let protocol :=
         match service_port (authority_of st) with
         | Some p => if String.eqb p "443" then "https://" else "http://"
         | None => "http://"
         end in
       host <- as_str TypeError (service_url (authority_of st)) ;;
       port <- as_str TypeError (service_port (authority_of st)) ;;
       let url := protocol +:+ host +:+ ":" +:+ port +:+ "/authority/" in
       wsdl_content <- urlopen_read url (Some 120%Z) ;;
       wsdl <- etree_fromstring wsdl_content ;;
       cache <- cache_instance (authority_of st) ;;
       store_cache_file cache part "authority.wsdl" wsdl_content ;;;
       ret wsdl
     else
       print (PyStr "Cached authority.wsdl file available") ;;;
       etree_fromstring_val file) ;;
  extract_authority_url wsdl.

(** *** class Service *)

Definition update_service (f : service -> service) : M unit :=
  modify (fun st => set_service (f (service_of st)) st).

Definition set_data_url (v : option string) (s : service) : service :=
  MkService v (metadata_url s).
Definition set_metadata_url (v : option string) (s : service) : service :=
  MkService (data_url s) v.

Definition is_ValueError (c : exn_class) : bool :=
  match c with ValueError => true | _ => false end.

Definition extract_service_url (wsdl : Xml.element) : M unit :=
  try_except
    (match Xml.xpath_data wsdl with
     | [node_data] =>
         update_service (set_data_url (Xml.get node_data "location")) ;;;
         location <- as_str TypeError (Xml.get node_data "location") ;;
         print (PyStr ("Data service HTTP binding: " +:+ location))
     | _ => raise ValueError "wrong number of values to unpack"
     end)
    is_ValueError
    (fun _ => print (PyStr "No data service endpoint found")) ;;;
  try_except
    (match Xml.xpath_metadata wsdl with
     | [node_metadata] =>
         update_service (set_metadata_url (Xml.get node_metadata "location")) ;;;
         location <- as_str TypeError (Xml.get node_metadata "location") ;;
         print (PyStr ("Metadata service HTTP binding : " +:+ location))
     | _ => raise ValueError "wrong number of values to unpack"
     end)
    is_ValueError
    (fun _ => print (PyStr "No metadata service endpoint found")).

(** What the two [try] blocks of [extract_service_url] come to, for the
    nodes [nodes] of their queries. *)
Definition data_step (nodes : list Xml.element) (st : state) : outcome unit * state :=
  match nodes with
  | [node] =>
      let st1 := set_service (set_data_url (Xml.get node "location") (service_of st)) st in
      match Xml.get node "location" with
      | Some v => (Ret tt, said ("Data service HTTP binding: " +:+ v) st1)
      | None => (Raise none_in_concatenation, st1)
      end
  | _ => (Ret tt, said "No data service endpoint found" st)
  end.

Definition metadata_step (nodes : list Xml.element) (st : state) : outcome unit * state :=
  match nodes with
  | [node] =>
      let st1 := set_service (set_metadata_url (Xml.get node "location") (service_of st)) st in
      match Xml.get node "location" with
      | Some v => (Ret tt, said ("Metadata service HTTP binding : " +:+ v) st1)
      | None => (Raise none_in_concatenation, st1)
      end
  | _ => (Ret tt, said "No metadata service endpoint found" st)
  end.

Definition get_service_wsdl (authority_url service_name lsid : option string) : M unit :=
  st <- get ;;
  cache <- cache_instance (service_of st) ;;
  name <- as_str TypeError service_name ;;
  file <- check_cache_file cache name "service.wsdl" ;;
  wsdl <-
    (if negb (truthy file) then
       print (PyStr "No service.wsdl file cached or file expired") ;;;
       base <- as_str TypeError authority_url ;;
       lsid <- as_str TypeError lsid ;;
       let url := base +:+ "/authority/?lsid=" +:+ lsid in
       wsdl_content <- urlopen_read url (Some 120%Z) ;;
       wsdl <- etree_fromstring wsdl_content ;;
       st <- get ;;
       cache <- cache_instance (service_of st) ;;
       store_cache_file cache name "service.wsdl" wsdl_content ;;;
       ret wsdl
     else
       print (PyStr "Cached service.wsdl file available") ;;;
       etree_fromstring_val file) ;;
  extract_service_url wsdl.

Definition get_data (lsid : option string) : M pyval :=
  st <- get ;;
  match data_url (service_of st) with
  | None =>
      print (PyStr "No data URL available") ;;;
      ret (PyBool false)
  | Some base =>
      lsid <- as_str TypeError lsid ;;
      let url := base +:+ "?lsid=" +:+ lsid in
      body <- urlopen_read url None ;;
      ret (PyBytes body)
  end.

Definition get_metadata (lsid : option string) : M pyval :=
  st <- get ;;
  match metadata_url (service_of st) with
  | None =>
      print (PyStr "No metadata URL available") ;;;
      ret PyNone
  | Some base =>
      lsid <- as_str TypeError lsid ;;
      let url := base +:+ "?lsid=" +:+ lsid in
      body <- urlopen_read url None ;;
      ret (PyBytes body)
  end.

(** *** class Resolver *)

Definition set_lsid (v : option string) : M unit := modify (set_lsid_field v).

Definition get_lsid : M (option string) := st <- get ;; ret (lsid st).

Definition validate_lsid : M bool :=
  st <- get ;;
  subject <- as_str TypeError (lsid st) ;;
  if negb (Pattern.re_match Pattern.lsid_pattern subject)
  then raise ValidationError "Error: LSID is not well formed!"
  else print (PyStr "This is a valid LSID") ;;; ret true.

Definition valid_message : event := Print (PyStr "This is a valid LSID").
Definition not_well_formed : exn := Exn ValidationError "Error: LSID is not well formed!".

Definition ESC : string := String "027" "".

(** The statements of the [try] block of [resolve_lsid] up to the
    comment [# get data and metadata] ... *)
Definition discover : M unit :=
  validate_lsid ;;;
  st <- get ;;
  get_authority_part (lsid st) ;;;
  get_authority_wsdl ;;;
  url <- get_authority_url ;;
  name <- get_service_name ;;
  id <- get_lsid ;;
  get_service_wsdl url name id.

(** ... and the four statements after it. *)
Definition retrieve : M unit :=
  print (PyStr "Data:") ;;;
  st <- get ;;
  data <- get_data (lsid st) ;;
  print data ;;;
  print (PyStr "Metadata:") ;;;
  st <- get ;;
  metadata <- get_metadata (lsid st) ;;
  print metadata.

(** The [except] clause lists [Exception], which every exception of the
    model derives from. *)
Definition resolve_lsid : M unit :=
  try_except
    (discover ;;; retrieve)
    (fun _ => true)
    (fun e =>
       print (PyStr (ESC +:+ "[91m" +:+ exn_msg e +:+ ESC +:+ "[0m")) ;;;
       print (PyStr "LSID resolving failed")).

(** The request of [get_data] and [get_metadata], and the state after
    the two lines of the [except] clause. *)
Definition payload_get (base id : string) : event := HttpGet (base +:+ "?lsid=" +:+ id) None.

Definition failure_lines (e : exn) (st : state) : state :=
  said "LSID resolving failed" (said (ESC +:+ "[91m" +:+ exn_msg e +:+ ESC +:+ "[0m") st).

Definition print_lsid : M unit :=
  st <- get ;;
  id <- as_str TypeError (lsid st) ;;
  print (PyStr ("Resolved LSID: " +:+ id)).

(** [Resolver()], [Authority()], [Service()] *)
Definition new_authority : authority := MkAuthority None None None None.
Definition new_service : service := MkService None None.
Definition new_resolver : M unit :=
  modify (fun st => set_service new_service (set_authority new_authority (set_lsid_field None st))).

Definition main (lsid : string) : M unit :=
  print (PyStr "Resolving LSID ...") ;;;
  new_resolver ;;;
  set_lsid (Some lsid) ;;;
  resolve_lsid ;;;
  print_lsid.

(** *** The two cache-first fetches

    [fetch] is [get_authority_wsdl] or [get_service_wsdl], [extract] the
    extraction it ends with, [name] the document in the partition [part]
    and [url] its source. *)

Definition GET (url : string) : event := HttpGet url (Some 120%Z).

(** A fresh entry with bytes in it: the document is the cached one and
    the network is left alone. *)
Definition on_hit (fetch : M unit) (extract : Xml.element -> M unit)
    (part name hit_line : string) (st : state) : Prop :=
  forall b : bytes,
    (check_cache_file 0 part name st).1 = Ret (PyBytes b) ->
    PyStr.truthy b = true ->
    fetch st = (wsdl <- etree_fromstring b ;; extract wsdl) (said hit_line (with_instance st))
    /\ network_events (fetch st).2 = network_events st.

(** No entry, an expired one or an empty one: one request with a timeout
    of 120 seconds; a body that parses is stored under the key before the
    extraction, and a failure of the request is the failure of the
    fetch. *)
Definition on_miss (fetch : M unit) (extract : Xml.element -> M unit)
    (part name miss_line url : string) (st : state) : Prop :=
  forall v : pyval,
    (check_cache_file 0 part name st).1 = Ret v ->
    truthy v = false ->
    let st1 := said miss_line (with_instance st) in
    let st2 := set_trace (trace st1 ++ [GET url]) st1 in
    network_events (fetch st).2 = network_events st ++ [GET url]
    /\ match http (net st) url with
       | HttpBody body =>
           match fromstring body with
           | Some wsdl =>
               fetch st = extract wsdl
                            (set_fs (<[cache_path part name := File body (utc_clock st)]> (fs st)) st2)
           | None => fetch st = (Raise (Exn XMLSyntaxError "Document is not well formed"), st2)
           end
       | HttpRaise e => fetch st = (Raise e, st2)
       | HttpHang => fetch st = (Raise (Exn SocketTimeout "timed out"), st2)
       end.

Definition authority_source (host port : string) : string :=
  (if String.eqb port "443" then "https://" else "http://")
    +:+ host +:+ ":" +:+ port +:+ "/authority/".

Definition service_source (base id : string) : string :=
  base +:+ "/authority/?lsid=" +:+ id.

End Methods.

(** ** The LSID grammar, by fields *)

Module Grammar.

Definition ascii_only (s : string) : bool :=
  forallb (fun c => (Pattern.code c <? 128)%N) (PyStr.chars s).

Definition ends_with_newline (s : string) : bool :=
  match PyStr.last_char s with
  | Some c => Ascii.eqb c "010"
  | None => false
  end.

(** The colon separated fields of a string, and the string of given
    fields. *)
Definition fields (s : string) : list (list ascii) :=
  PyStr.split_chars ":" (PyStr.chars s).

Fixpoint join (fs : list (list ascii)) : list ascii :=
  match fs with
  | [] => []
  | [f] => f
  | f :: fs' => f ++ ":"%char :: join fs'
  end.

Definition no_colon (f : list ascii) : bool :=
  forallb (fun c => negb (Ascii.eqb c ":")) f.

(** [w] is in lower case; [s] spells it in any mix of cases. *)
Fixpoint spells (w s : list ascii) : bool :=
  match w, s with
  | [], [] => true
  | a :: w', c :: s' =>
      (Ascii.eqb c a || (Pattern.code c + 32 =? Pattern.code a)%N) && spells w' s'
  | _, _ => false
  end.

(** [urn], [lsid], three segments and an optional fourth one. *)
Definition well_formed (segment : list ascii -> bool) (fs : list (list ascii)) : bool :=
  match fs with
  | [u; l; a; n; o] =>
      spells (PyStr.chars "urn") u && spells (PyStr.chars "lsid") l
      && segment a && segment n && segment o
  | [u; l; a; n; o; r] =>
      spells (PyStr.chars "urn") u && spells (PyStr.chars "lsid") l
      && segment a && segment n && segment o && segment r
  | _ => false
  end.

(** The character class of the data model: letters, digits, the
    punctuation and the underscore. *)
Definition allowed (c : ascii) : bool :=
  Pattern.alnum c || Pattern.punct c || Ascii.eqb c "_".

(** The grammar as the specification words it: the prefix in any case,
    three non-empty segments over the allowed class and an optional
    fourth one. *)
Definition spec_segment (f : list ascii) : bool :=
  match f with
  | [] => false
  | _ :: _ => forallb allowed f
  end.

Definition spec_grammar (s : string) : bool := well_formed spec_segment (fields s).

(** The grammar of the pattern: each segment starts with a letter or a
    digit and goes on in the class [tail]. *)
Definition segment (tail : ascii -> bool) (f : list ascii) : bool :=
  match f with
  | c :: rest => Pattern.alnum c && forallb tail rest
  | [] => false
  end.

Definition lsid_grammar (s : string) : bool := well_formed (segment allowed) (fields s).

End Grammar.

(** ** Sample documents and states *)

Module Sample.
Import Xml.

Definition address (location : string) : element :=
  Element (QName ns_http "address") {[ "location" := location ]} [].

Definition wsdl_port (binding : string) (kids : list element) : element :=
  Element (QName ns_wsdl "port") {[ "binding" := binding ]} kids.

Definition definitions (ports : list element) : element :=
  Element (QName ns_wsdl "definitions") ∅ [Element (QName ns_wsdl "service") ∅ ports].

Definition authority_doc : element :=
  definitions [wsdl_port "tns:LSIDAuthorityHTTPBinding" [address "https://lsid.nmbe.ch:443"]].

Definition service_doc : element :=
  definitions
    [wsdl_port "tns:LSIDDataHTTPBinding" [address "https://lsid.nmbe.ch/authority/data"];
     wsdl_port "tns:LSIDMetadataHTTPBinding" [address "https://lsid.nmbe.ch/authority/metadata"]].

Definition authority_bytes : bytes :=
  "<definitions xmlns='http://schemas.xmlsoap.org/wsdl/' xmlns:http='http://schemas.xmlsoap.org/wsdl/http/'><service><port binding='tns:LSIDAuthorityHTTPBinding'><http:address location='https://lsid.nmbe.ch:443'/></port></service></definitions>".

Definition service_bytes : bytes :=
  "<definitions xmlns='http://schemas.xmlsoap.org/wsdl/' xmlns:http='http://schemas.xmlsoap.org/wsdl/http/'><service><port binding='tns:LSIDDataHTTPBinding'><http:address location='https://lsid.nmbe.ch/authority/data'/></port><port binding='tns:LSIDMetadataHTTPBinding'><http:address location='https://lsid.nmbe.ch/authority/metadata'/></port></service></definitions>".

(** Documents off the beaten track: a matching port without an address,
    two matching ports of which one has an address, an address without
    a location, and a data binding whose address has no location next to
    a sound metadata binding. *)
Definition bare_address : element := Element (QName ns_http "address") ∅ [].

Definition port_without_address : element :=
  definitions [wsdl_port "tns:LSIDAuthorityHTTPBinding" []].

Definition two_ports_one_address : element :=
  definitions
    [wsdl_port "tns:LSIDAuthorityHTTPBinding" [address "https://lsid.nmbe.ch:443"];
     wsdl_port "alt:LSIDAuthorityHTTPBinding" []].

Definition address_without_location : element :=
  definitions [wsdl_port "tns:LSIDAuthorityHTTPBinding" [bare_address]].

Definition data_without_location : element :=
  definitions
    [wsdl_port "tns:LSIDDataHTTPBinding" [bare_address];
     wsdl_port "tns:LSIDMetadataHTTPBinding" [address "https://lsid.nmbe.ch/authority/metadata"]].

(** The parser on the two sample documents. *)
Definition fromstring (b : bytes) : option element :=
  if String.eqb b authority_bytes then Some authority_doc
  else if String.eqb b service_bytes then Some service_doc
  else None.

Definition unreachable : exn := Exn URLError "<urlopen error [Errno 111] Connection refused>".

(** A network with the authority of [nmbe.ch]: [data] and [metadata] are
    the behaviour of the two payload endpoints. *)
Definition network_of (data metadata : http_response) : network :=
  Network
    (fun q => if String.eqb q "_lsid._tcp.nmbe.ch" then DnsAnswer [SRV "lsid.nmbe.ch." 443]
              else DnsRaise (Exn DNSException "The DNS query name does not exist"))
    (fun u =>
       if String.eqb u "https://lsid.nmbe.ch:443/authority/" then HttpBody authority_bytes
       else if String.eqb u "https://lsid.nmbe.ch:443/authority/?lsid=urn:lsid:nmbe.ch:spidersp:021946"
       then HttpBody service_bytes
       else if String.eqb u "https://lsid.nmbe.ch/authority/data?lsid=urn:lsid:nmbe.ch:spidersp:021946"
       then data
       else if String.eqb u "https://lsid.nmbe.ch/authority/metadata?lsid=urn:lsid:nmbe.ch:spidersp:021946"
       then metadata
       else HttpRaise unreachable).

(** A name server with two records for [example.org]. *)
Definition two_records : network :=
  Network
    (fun _ => DnsAnswer [SRV "first.example.org" 8080; SRV "second.example.org." 443])
    (fun _ => HttpRaise unreachable).

(** A fresh process at [clock], local time being UTC, with the files
    [files] in the cache directory. *)
Definition process (files : gmap string file) (clock : Z) (n : network) : state :=
  State None (MkAuthority None None None None) (MkService None None) None 0
    files clock 0 n [].

Definition nmbe_lsid : string := "urn:lsid:nmbe.ch:spidersp:021946".

(** The process of [nmbe_lsid] before [resolve_lsid] and after a
    successful [discover], seen from an empty cache. *)
Definition asking (data metadata : http_response) : state :=
  set_lsid_field (Some nmbe_lsid) (process ∅ 1000 (network_of data metadata)).

Definition discovered (data metadata : http_response) : state :=
  (discover fromstring (asking data metadata)).2.

(** The process of [nmbe_lsid] after [get_authority_part], with the
    files [files] in the cache directory. *)
Definition located (files : gmap string file) : state :=
  (get_authority_part (Some nmbe_lsid)
     (set_lsid_field (Some nmbe_lsid)
        (process files 1000 (network_of (HttpRaise unreachable) (HttpRaise unreachable))))).2.

(** The process once [set_lsid(s)] has run, with no payload endpoint
    reachable. *)
Definition holding (s : string) : state :=
  set_lsid_field (Some s)
    (process ∅ 0 (network_of (HttpRaise unreachable) (HttpRaise unreachable))).

End Sample.

(** ** Further definitions *)

(** [datetime.timestamp()] of a naive date-time, which Python reads as
    local time: the inverse of [fromtimestamp]. *)
Definition timestamp (st : state) (naive : Z) : Z := (naive - utc_offset st)%Z.

(** A name without a slash. *)
Fixpoint no_slash (s : string) : bool :=
  match s with
  | EmptyString => true
  | String c s' => negb (Ascii.eqb c "/") && no_slash s'
  end.

(** No payload or description endpoint of the network hangs. *)
Definition no_hang (st : state) : Prop := forall url, http (net st) url <> HttpHang.

(** The method [m] cannot block while no endpoint hangs, and leaves the
    network as it is. *)
Definition calm {A : Type} (m : M A) : Prop :=
  forall st, no_hang st -> (m st).1 <> Blocked /\ no_hang (m st).2.

(** The method [m] makes at most [n] network calls. *)
Definition within (n : nat) {A : Type} (m : M A) : Prop :=
  forall st, exists l,
    network_events (m st).2 = network_events st ++ l /\ length l <= n.

(** What no method of the resolution changes: the stored LSID, the
    behaviour of the network, the clock and the offset of local time. *)
Definition same_world (st st' : state) : Prop :=
  lsid st' = lsid st /\ net st' = net st
  /\ utc_clock st' = utc_clock st /\ utc_offset st' = utc_offset st.

Definition steady {A : Type} (m : M A) : Prop := forall st, same_world st (m st).2.

(** ** The environment the cache is modelled in *)

(** The model of the cache directory is a map from the path of a file to
    its bytes and modification time, and its clock counts microseconds
    at one fixed offset of local time: a POSIX file system that the
    process may read and write and that nothing else changes, and a time
    zone without transitions.  The predicates below single out the names,
    directories and instants for which the calls of [pathlib], [os.path]
    and [datetime] return instead of raising, and for which different
    path strings are different files. *)

(** A character of a plain file name: printable ASCII other than the
    slash and the capital letters, which some file systems do not tell
    from the small ones. *)
Definition plain_char (a : ascii) : bool :=
  (33 <=? nat_of_ascii a)%nat && (nat_of_ascii a <=? 126)%nat
  && negb (Ascii.eqb a "/")
  && negb ((65 <=? nat_of_ascii a)%nat && (nat_of_ascii a <=? 90)%nat).

(** A name that is one component of a path and that the file system
    takes: 1 to 255 plain characters, other than [.] and [..]. *)
Definition plain_name (s : string) : bool :=
  forallb plain_char (PyStr.chars s)
  && (1 <=? String.length s)%nat && (String.length s <=? 255)%nat
  && negb (String.eqb s ".") && negb (String.eqb s "..").

(** The time stamps below 2^32 seconds, in microseconds: the instants
    from 1970 to 2106, which [datetime] can represent and a float of
    seconds holds to the microsecond. *)
Definition timestamp_max : Z := 4294967296 * 1000000.

(** The instant [t] is in that range, in UTC and in local time. *)
Definition in_era (st : state) (t : Z) : Prop :=
  (0 <= t < timestamp_max)%Z /\ (0 <= t + utc_offset st < timestamp_max)%Z.

Definition clock_ok (st : state) : Prop := in_era st (utc_clock st).

(** The cache directory holds nothing but regular files of plain names in
    directories of plain names, written at instants in the range. *)
Definition tidy (st : state) : Prop :=
  forall k f, fs st !! k = Some f ->
    in_era st (mtime f)
    /\ exists p n, plain_name p = true /\ plain_name n = true /\ k = cache_path p n.

(** ** The console *)

(** A text every console encoding can write. *)
Definition ascii_text (s : string) : bool :=
  forallb (fun a => (nat_of_ascii a <? 128)%nat) (PyStr.chars s).

(** An event that cannot fail on the console: [print] writes the [repr]
    of bytes, of a truth value and of [None] in ASCII. *)
Definition encodable (e : event) : bool :=
  match e with
  | Print (PyStr s) => ascii_text s
  | _ => true
  end.

(** * Theorems *)

(** ** Running a bind *)

Lemma bind_ret_run {A B} (m : M A) (k : A -> M B) st a st' :
  m st = (Ret a, st') -> bind m k st = k a st'.
Proof. unfold bind. by intros ->. Qed.

Lemma bind_raise_run {A B} (m : M A) (k : A -> M B) st e st' :
  m st = (Raise e, st') -> bind m k st = (Raise e, st').
Proof. unfold bind. by intros ->. Qed.

Lemma bind_blocked_run {A B} (m : M A) (k : A -> M B) st st' :
  m st = (Blocked, st') -> bind m k st = (Blocked, st').
Proof. unfold bind. by intros ->. Qed.

Lemma bind_assoc_run {A B C} (m : M A) (f : A -> M B) (k : B -> M C) st :
  bind (bind m f) k st = bind m (fun x => bind (f x) k) st.
Proof. unfold bind. by destruct (m st) as [[a|e|] st']. Qed.

Tactic Notation "step" tactic3(tac) :=
  cbv beta; rewrite ?bind_assoc_run;
  first [erewrite bind_ret_run by tac | erewrite bind_raise_run by tac].

Lemma print_run line st : print (PyStr line) st = (Ret tt, said line st).
Proof. reflexivity. Qed.

Lemma print_any v st : print v st = (Ret tt, set_trace (trace st ++ [Print v]) st).
Proof. reflexivity. Qed.


(** ** The derivative matcher decides the language of the expression *)

Module RegexFacts.
Import Regex.

Lemma matches_nil_cat r1 r2 :
  matches (Cat r1 r2) [] -> matches r1 [] /\ matches r2 [].
Proof.
  intros H. inversion H; subst.
  match goal with E : _ ++ _ = [] |- _ => apply app_eq_nil in E as [-> ->] end.
  by split.
Qed.

Lemma nullable_matches r : nullable r = true <-> matches r [].
Proof.
  induction r as [| |p|r1 IH1 r2 IH2|r1 IH1 r2 IH2|r IH]; simpl.
  - split; [discriminate | intros H; inversion H].
  - split; [intros _; constructor | done].
  - split; [discriminate | intros H; inversion H].
  - rewrite andb_true_iff, IH1, IH2. split.
    + intros [H1 H2]. apply (MCat _ _ [] []); assumption.
    + apply matches_nil_cat.
  - rewrite orb_true_iff, IH1, IH2. split.
    + intros [H|H]; [by apply MAltL | by apply MAltR].
    + intros H. inversion H; subst; [by left | by right].
  - split; [intros _; constructor | done].
Qed.

Lemma matches_cons c r s :
  matches r (c :: s) -> matches (deriv c r) s.
Proof.
  intros H. remember (c :: s) as w eqn:Ew.
  revert s Ew. induction H as [|p d Hp|r1 r2 s1 s2 H1 IH1 H2 IH2|r1 r2 w H IH|r1 r2 w H IH| |r s1 s2 H1 IH1 H2 IH2];
    intros s Ew; simpl.
  - discriminate.
  - injection Ew as -> <-. rewrite Hp. constructor.
  - destruct s1 as [|d s1].
    + simpl in Ew. subst s2.
      apply nullable_matches in H1. rewrite H1.
      apply MAltR. by apply IH2.
    + injection Ew as -> <-.
      assert (matches (Cat (deriv c r1) r2) (s1 ++ s2)) by (constructor; [by apply IH1 | done]).
      destruct (nullable r1); [by apply MAltL | done].
  - apply MAltL. by apply IH.
  - apply MAltR. by apply IH.
  - discriminate.
  - destruct s1 as [|d s1].
    + simpl in Ew. by apply IH2.
    + injection Ew as -> <-. constructor; [by apply IH1 | done].
Qed.

Lemma deriv_matches c r s :
  matches (deriv c r) s -> matches r (c :: s).
Proof.
  revert s. induction r as [| |p|r1 IH1 r2 IH2|r1 IH1 r2 IH2|r IH]; simpl; intros s H.
  - inversion H.
  - inversion H.
  - destruct (p c) eqn:Hp; inversion H; subst. by constructor.
  - assert (Hcat : forall w, matches (Cat (deriv c r1) r2) w -> matches (Cat r1 r2) (c :: w)).
    { intros w Hw. inversion Hw as [| |? ? s1 s2 Ha Hb| | | |]; subst.
      apply (MCat r1 r2 (c :: s1) s2); [by apply IH1 | done]. }
    destruct (nullable r1) eqn:Hn.
    + inversion H; subst; [by apply Hcat |].
      apply (MCat r1 r2 [] (c :: s)); [by apply nullable_matches | by apply IH2].
    + by apply Hcat.
  - inversion H; subst; [apply MAltL; by apply IH1 | apply MAltR; by apply IH2].
  - inversion H as [| |? ? s1 s2 Ha Hb| | | |]; subst.
    apply (MStarS r (c :: s1) s2); [by apply IH | done].
Qed.

Lemma fullmatch_matches r s : fullmatch r s = true <-> matches r s.
Proof.
  revert r. induction s as [|c s IH]; intros r; simpl.
  - apply nullable_matches.
  - rewrite IH. split; [apply deriv_matches | apply matches_cons].
Qed.

End RegexFacts.

(** ** The language of the LSID pattern *)

Module LsidFacts.
Import Regex RegexFacts Pattern Grammar.

Lemma matches_cls p s : matches (Cls p) s <-> exists c, s = [c] /\ p c = true.
Proof.
  split.
  - intros H. inversion H; subst. eauto.
  - intros (c & -> & Hc). by constructor.
Qed.

Lemma matches_cat r1 r2 s :
  matches (Cat r1 r2) s <-> exists s1 s2, s = s1 ++ s2 /\ matches r1 s1 /\ matches r2 s2.
Proof.
  split.
  - intros H. inversion H; subst. eauto.
  - intros (s1 & s2 & -> & H1 & H2). by constructor.
Qed.

Lemma matches_opt r s : matches (opt r) s <-> s = [] \/ matches r s.
Proof.
  unfold opt. split.
  - intros H. inversion H as [| | |? ? ? H'|? ? ? H'| |]; subst; [left; by inversion H' | by right].
  - intros [->|H]; [apply MAltL; constructor | by apply MAltR].
Qed.

Lemma matches_star_cls p s : matches (Star (Cls p)) s <-> forallb p s = true.
Proof.
  split.
  - intros H. remember (Star (Cls p)) as r eqn:Er.
    induction H as [| | | | | |r s1 s2 H1 _ H2 IH2]; try discriminate; [done|].
    injection Er as ->. apply matches_cls in H1 as (c & -> & Hc).
    simpl. rewrite Hc. by apply IH2.
  - induction s as [|c s IH]; simpl; [constructor|].
    intros [Hc Hs]%andb_true_iff.
    apply (MStarS (Cls p) [c] s); [by constructor | by apply IH].
Qed.

Lemma matches_segment s :
  matches Pattern.segment s <-> exists c rest, s = c :: rest /\ alnum c = true /\ forallb tail_class rest = true.
Proof.
  unfold Pattern.segment. rewrite matches_cat. split.
  - intros (s1 & s2 & -> & (c & -> & Hc)%matches_cls & H2%matches_star_cls). eauto.
  - intros (c & rest & -> & Hc & Hr). exists [c], rest.
    split; [done|]. split; [by apply matches_cls; eauto | by apply matches_star_cls].
Qed.

(** Fields and separators *)

Lemma split_chars_not_nil sep l : PyStr.split_chars sep l <> [].
Proof.
  destruct l as [|c l]; simpl; [done|].
  destruct (Ascii.eqb c sep); [done|]. by destruct (PyStr.split_chars sep l).
Qed.

Lemma split_chars_field f rest :
  no_colon f = true ->
  PyStr.split_chars ":" (f ++ ":"%char :: rest) = f :: PyStr.split_chars ":" rest.
Proof.
  induction f as [|c f IH]; simpl; [done|].
  intros [Hc Hf]%andb_true_iff. apply negb_true_iff in Hc. rewrite Hc.
  by rewrite IH.
Qed.

Lemma split_chars_last f :
  no_colon f = true -> PyStr.split_chars ":" f = [f].
Proof.
  induction f as [|c f IH]; simpl; [done|].
  intros [Hc Hf]%andb_true_iff. apply negb_true_iff in Hc. rewrite Hc.
  by rewrite IH.
Qed.

Lemma split_join fs :
  fs <> [] -> forallb no_colon fs = true -> PyStr.split_chars ":" (join fs) = fs.
Proof.
  induction fs as [|f fs IH]; [done|]. intros _ [Hf Hfs]%andb_true_iff.
  destruct fs as [|g fs].
  - simpl. by apply split_chars_last.
  - change (join (f :: g :: fs)) with (f ++ ":"%char :: join (g :: fs)).
    rewrite split_chars_field by done. by rewrite IH.
Qed.

Lemma join_split l :
  join (PyStr.split_chars ":" l) = l /\ forallb no_colon (PyStr.split_chars ":" l) = true.
Proof.
  induction l as [|c l [IH1 IH2]]; simpl; [done|].
  destruct (Ascii.eqb c ":") eqn:Hc.
  - apply Ascii.eqb_eq in Hc as ->.
    pose proof (split_chars_not_nil ":" l) as Hne.
    destruct (PyStr.split_chars ":" l) as [|f fs] eqn:E; [done|].
    simpl in *. rewrite IH2. split; [by rewrite IH1 | done].
  - pose proof (split_chars_not_nil ":" l) as Hne.
    destruct (PyStr.split_chars ":" l) as [|f fs] eqn:E; [done|].
    simpl in IH2. apply andb_true_iff in IH2 as [Hf Hfs].
    split.
    + rewrite <- IH1. by destruct fs.
    + simpl. by rewrite Hc, Hf, Hfs.
Qed.

Lemma matches_dollar s : matches dollar s <-> s = [] \/ s = ["010"%char].
Proof.
  unfold dollar, chr. rewrite matches_opt, matches_cls. split.
  - intros [->|(c & -> & ->%Ascii.eqb_eq)]; auto.
  - intros [->| ->]; [by left | right; eauto].
Qed.

Lemma either_spells (a b c : ascii) :
  (Pattern.code b + 32 =? Pattern.code a)%N = true ->
  (Ascii.eqb c a || Ascii.eqb c b) = (Ascii.eqb c a || (Pattern.code c + 32 =? Pattern.code a)%N).
Proof.
  intros Hb. f_equal. destruct (Ascii.eqb c b) eqn:E.
  - apply Ascii.eqb_eq in E as ->. by rewrite Hb.
  - symmetry. apply N.eqb_neq. intros Hc. apply Ascii.eqb_neq in E. apply E.
    apply N.eqb_eq in Hb. unfold Pattern.code in *.
    rewrite <- (ascii_N_embedding c), <- (ascii_N_embedding b). f_equal. lia.
Qed.

Lemma class_no_colon c : tail_class c = true -> negb (Ascii.eqb c ":") = true.
Proof.
  destruct (Ascii.eqb c ":") eqn:E; [|done].
  apply Ascii.eqb_eq in E as ->. by vm_compute.
Qed.

Lemma alnum_no_colon c : alnum c = true -> negb (Ascii.eqb c ":") = true.
Proof.
  destruct (Ascii.eqb c ":") eqn:E; [|done].
  apply Ascii.eqb_eq in E as ->. by vm_compute.
Qed.

Lemma segment_no_colon tail f :
  (forall c, tail c = true -> negb (Ascii.eqb c ":") = true) ->
  Grammar.segment tail f = true -> no_colon f = true.
Proof.
  intros Ht. destruct f as [|c rest]; simpl; [done|].
  intros [Hc Hr]%andb_true_iff. rewrite (alnum_no_colon c Hc). simpl.
  unfold no_colon. rewrite forallb_forall in *. auto.
Qed.

Lemma spells_no_colon w s :
  forallb (fun a => negb (Pattern.code a =? 58 + 32)%N) w = true ->
  no_colon w = true -> spells w s = true -> no_colon s = true.
Proof.
  revert s. induction w as [|a w IH]; intros [|c s]; simpl; try done.
  intros [Hz Hw']%andb_true_iff [Ha Hw]%andb_true_iff [Hc Hs]%andb_true_iff.
  rewrite (IH s Hw' Hw Hs), andb_true_r.
  destruct (Ascii.eqb c ":") eqn:E; [|done].
  apply Ascii.eqb_eq in E as ->. exfalso.
  apply orb_true_iff in Hc as [Hc|Hc].
  - apply Ascii.eqb_eq in Hc as <-. by vm_compute in Ha.
  - apply N.eqb_eq in Hc. apply negb_true_iff, N.eqb_neq in Hz.
    apply Hz. rewrite <- Hc. reflexivity.
Qed.

Lemma well_formed_no_colon tail fs :
  (forall c, tail c = true -> negb (Ascii.eqb c ":") = true) ->
  well_formed (Grammar.segment tail) fs = true -> forallb no_colon fs = true.
Proof.
  intros Ht.
  assert (Hs := segment_no_colon tail).
  assert (Hu := spells_no_colon (PyStr.chars "urn")).
  assert (Hl := spells_no_colon (PyStr.chars "lsid")).
  unfold well_formed.
  destruct fs as [|u [|l [|a [|n [|o [|r [|]]]]]]]; try done; cbn [forallb];
    rewrite !andb_true_iff; intros H; destruct_and!; rewrite ?andb_true_r;
    repeat split; auto.
Qed.

Ltac invert_matches :=
  repeat match goal with
    | H : matches (Cat _ _) _ |- _ => apply matches_cat in H as (? & ? & -> & ? & ?)
    | H : matches (Cls _) _ |- _ => apply matches_cls in H as (? & -> & ?)
    | H : matches Pattern.segment _ |- _ => apply matches_segment in H as (? & ? & -> & ? & ?)
    | H : matches dollar _ |- _ => apply matches_dollar in H as [-> | ->]
    | H : matches (opt _) _ |- _ => apply matches_opt in H as [-> | H]
    | H : Ascii.eqb _ _ = true |- _ => apply Ascii.eqb_eq in H; subst
    end.

Lemma spells_either (a b c : ascii) (w s : list ascii) :
  (Ascii.eqb c a || Ascii.eqb c b) = true ->
  (Pattern.code b + 32 =? Pattern.code a)%N = true ->
  spells w s = true ->
  spells (a :: w) (c :: s) = true.
Proof.
  intros Hc Hb Hs. simpl. by rewrite <- (either_spells a b c Hb), Hc, Hs.
Qed.

Lemma spells_inv (a : ascii) (w s : list ascii) :
  let b := ascii_of_N (Pattern.code a - 32) in
  (Pattern.code b + 32 =? Pattern.code a)%N = true ->
  spells (a :: w) s = true ->
  exists c s', s = c :: s' /\ (Ascii.eqb c a || Ascii.eqb c b) = true /\ spells w s' = true.
Proof.
  intros b Hb. destruct s as [|c s']; simpl; [done|].
  rewrite <- (either_spells a b c Hb). intros [Hc Hs]%andb_true_iff. eauto.
Qed.

Lemma spells_nil s : spells [] s = true -> s = [].
Proof. by destruct s. Qed.

Lemma segment_matches f :
  Grammar.segment tail_class f = true -> matches Pattern.segment f.
Proof.
  destruct f as [|c rest]; simpl; [done|]. intros [Hc Hr]%andb_true_iff.
  apply matches_segment. eauto.
Qed.

Ltac build_matches :=
  repeat match goal with
    | |- matches (Cat (Cls _) _) (?c :: ?s) =>
        apply (MCat _ _ [c] s); [apply MCls; first [assumption | apply Ascii.eqb_refl] |]
    | |- matches (Cat Pattern.segment _) (?a ++ ?s) =>
        apply (MCat _ _ a s); [by apply segment_matches |]
    end.

(** The language of the pattern, by fields. *)
Lemma pattern_language w :
  matches lsid_pattern w <->
  exists fs nl, w = join fs ++ nl /\ (nl = [] \/ nl = ["010"%char])
                /\ well_formed (Grammar.segment tail_class) fs = true.
Proof.
  split.
  - unfold lsid_pattern, either, colon, chr. intros H.
    invert_matches.
    all: match goal with
         | |- exists fs nl,
               [?c1] ++ [?c2] ++ [?c3] ++ [_] ++ [?c4] ++ [?c5] ++ [?c6] ++ [?c7] ++ [_]
               ++ ?a ++ [_] ++ ?n ++ [_] ++ ?o ++ [] ++ ?e = _ /\ _ =>
             exists [[c1; c2; c3]; [c4; c5; c6; c7]; a; n; o], e
         | |- exists fs nl,
               [?c1] ++ [?c2] ++ [?c3] ++ [_] ++ [?c4] ++ [?c5] ++ [?c6] ++ [?c7] ++ [_]
               ++ ?a ++ [_] ++ ?n ++ [_] ++ ?o ++ ([_] ++ ?r) ++ ?e = _ /\ _ =>
             exists [[c1; c2; c3]; [c4; c5; c6; c7]; a; n; o; r], e
         end.
    all: split; [cbn [join app]; repeat first [rewrite app_nil_r | rewrite <- app_assoc | progress cbn [app]]; reflexivity |].
    all: split; [auto |].
    all: unfold well_formed; rewrite !andb_true_iff; repeat split.
    all: try (cbn [Grammar.segment]; apply andb_true_intro; by split).
    all: repeat (eapply spells_either; [eassumption | reflexivity |]); reflexivity.
  - intros (fs & nl & -> & Hnl & Hwf).
    apply matches_dollar in Hnl.
    unfold well_formed in Hwf.
    destruct fs as [|u [|l [|a [|n [|o [|r [|]]]]]]]; try done;
      rewrite !andb_true_iff in Hwf; destruct_and!.
    all: repeat match goal with
           | H : spells (PyStr.chars _) _ = true |- _ => cbn [PyStr.chars list_ascii_of_string] in H
           | H : spells (_ :: _) _ = true |- _ =>
               eapply spells_inv in H as (? & ? & -> & ? & H); [|reflexivity]
           | H : spells [] _ = true |- _ => apply spells_nil in H as ->
           end.
    all: cbn [join app]; repeat first [rewrite app_nil_r | rewrite <- app_assoc | progress cbn [app]].
    all: unfold lsid_pattern, either, colon, chr; build_matches.
    + apply (MCat _ _ [] nl); [apply matches_opt; by left | done].
    + apply (MCat _ _ (":"%char :: r) nl); [|done].
      apply matches_opt. right.
      apply (MCat _ _ [":"%char] r); [apply MCls, Ascii.eqb_refl | by apply segment_matches].
Qed.

Lemma re_match_fields s :
  re_match lsid_pattern s = true <->
  exists fs nl, PyStr.chars s = join fs ++ nl /\ (nl = [] \/ nl = ["010"%char])
                /\ well_formed (Grammar.segment tail_class) fs = true.
Proof. unfold re_match. rewrite fullmatch_matches. apply pattern_language. Qed.

Lemma allowed_tail c : allowed c = true -> tail_class c = true.
Proof.
  unfold allowed, tail_class, word.
  destruct (alnum c), (punct c), (Ascii.eqb c "_"); simpl; auto; try discriminate.
  intros _. apply orb_true_r.
Qed.

Lemma tail_ascii_allowed c :
  tail_class c = true -> (Pattern.code c <? 128)%N = true -> allowed c = true.
Proof.
  destruct c as [[] [] [] [] [] [] [] []]; vm_compute; intros; congruence.
Qed.

Lemma segment_mono (p q : ascii -> bool) f :
  (forall c, c ∈ f -> p c = true -> q c = true) ->
  Grammar.segment p f = true -> Grammar.segment q f = true.
Proof.
  destruct f as [|c rest]; simpl; [done|]. intros Hpq [Hc Hr]%andb_true_iff.
  rewrite Hc. simpl. rewrite forallb_forall in *. intros x Hx.
  apply Hpq; [apply elem_of_cons; right; by apply list_elem_of_In | by apply Hr].
Qed.

Lemma well_formed_mono (seg1 seg2 : list ascii -> bool) fs :
  (forall f, f ∈ fs -> seg1 f = true -> seg2 f = true) ->
  well_formed seg1 fs = true -> well_formed seg2 fs = true.
Proof.
  intros Hs. unfold well_formed.
  destruct fs as [|u [|l [|a [|n [|o [|r [|]]]]]]]; try done;
    rewrite !andb_true_iff; intros H; destruct_and!; repeat split; try done;
    apply Hs; try done; set_solver.
Qed.

Lemma forallb_join p fs f :
  forallb p (join fs) = true -> f ∈ fs -> forallb p f = true.
Proof.
  induction fs as [|g fs IH]; intros H Hf; [by apply elem_of_nil in Hf|].
  destruct fs as [|h fs].
  - apply list_elem_of_singleton in Hf as ->. exact H.
  - change (join (g :: h :: fs)) with (g ++ ":"%char :: join (h :: fs)) in H.
    rewrite forallb_app in H. apply andb_true_iff in H as [Hg Hrest].
    simpl in Hrest. apply andb_true_iff in Hrest as [_ Hrest].
    apply elem_of_cons in Hf as [->|Hf]; [done | by apply IH].
Qed.

(** A well-formed string matches the pattern. *)
Lemma grammar_matches s :
  lsid_grammar s = true -> re_match lsid_pattern s = true.
Proof.
  intros H. apply re_match_fields. exists (fields s), [].
  destruct (join_split (PyStr.chars s)) as [Hj _].
  split; [by rewrite app_nil_r | split; [by left|]].
  revert H. apply well_formed_mono. intros f _. apply segment_mono.
  intros c _. apply allowed_tail.
Qed.

(** An ASCII string that matches the pattern and does not end in a line
    feed is well formed. *)
Lemma matches_grammar s :
  re_match lsid_pattern s = true ->
  ascii_only s = true -> ends_with_newline s = false ->
  lsid_grammar s = true.
Proof.
  intros (fs & nl & Hs & Hnl & Hwf)%re_match_fields Hascii Hend.
  destruct Hnl as [-> | ->].
  - rewrite app_nil_r in Hs. unfold lsid_grammar, fields. rewrite Hs.
    rewrite split_join.
    + revert Hwf. apply well_formed_mono. intros f Hf. apply segment_mono.
      intros c Hc Ht. apply tail_ascii_allowed; [done|].
      unfold ascii_only in Hascii. rewrite Hs in Hascii.
      pose proof (forallb_join _ _ _ Hascii Hf) as Hf'.
      rewrite forallb_forall in Hf'. by apply Hf', list_elem_of_In.
    + by destruct fs.
    + eapply well_formed_no_colon; [apply class_no_colon | done].
  - unfold ends_with_newline, PyStr.last_char in Hend.
    rewrite Hs, last_snoc in Hend. done.
Qed.

End LsidFacts.

(** ** Resolver.validate_lsid *)

Section Validate.
Import Grammar Sample.

Lemma network_events_snoc st e :
  network_events (set_trace (trace st ++ [e]) st)
  = network_events st ++ (if is_network e then [e] else []).
Proof.
  unfold network_events. cbn [trace set_trace]. rewrite filter_app. f_equal.
  by destruct e.
Qed.

Lemma validate_lsid_run st s :
  lsid st = Some s ->
  validate_lsid st =
    if Pattern.re_match Pattern.lsid_pattern s
    then (Ret true, set_trace (trace st ++ [valid_message]) st)
    else (Raise not_well_formed, st).
Proof.
  intros Hs. unfold validate_lsid, bind, get, as_str. rewrite Hs. simpl.
  by destruct (Pattern.re_match Pattern.lsid_pattern s).
Qed.

Lemma validate_lsid_frame st :
  let st' := (validate_lsid st).2 in
  lsid st' = lsid st /\ fs st' = fs st /\ network_events st' = network_events st.
Proof.
  cbv zeta. destruct (lsid st) as [s|] eqn:Hs.
  - rewrite (validate_lsid_run st s Hs).
    destruct (Pattern.re_match Pattern.lsid_pattern s); cbn [snd]; [|done].
    repeat split; [done|]. by rewrite network_events_snoc, app_nil_r.
  - unfold validate_lsid, bind, get, as_str. by rewrite Hs.
Qed.

(** C1, as amended.  A string of the form [urn:lsid:a:n:o] or
    [urn:lsid:a:n:o:r], the prefix in any case, each segment starting with
    a letter or a digit and going on with letters, digits, underscores and
    the punctuation of the class, is accepted: [validate_lsid] returns
    [True] after one console line.  An ASCII string that does not end in a
    line feed and is not of that form raises [ValidationError] and leaves
    the state as it was.  In every case the stored LSID and the files are
    the same afterwards and no network call is made. *)
Theorem validate_lsid_well_formed (st : state) (s : string) :
  lsid st = Some s ->
  (lsid_grammar s = true ->
     validate_lsid st = (Ret true, set_trace (trace st ++ [valid_message]) st))
  /\ (lsid_grammar s = false -> ascii_only s = true -> ends_with_newline s = false ->
        validate_lsid st = (Raise not_well_formed, st))
  /\ (let st' := (validate_lsid st).2 in
        lsid st' = Some s /\ fs st' = fs st /\ network_events st' = network_events st).
Proof.
  intros Hs. cbv zeta. rewrite (validate_lsid_run st s Hs). repeat split.
  - intros Hg. by rewrite (LsidFacts.grammar_matches s Hg).
  - intros Hg Ha He.
    destruct (Pattern.re_match Pattern.lsid_pattern s) eqn:Hm; [|done].
    by rewrite (LsidFacts.matches_grammar s Hm Ha He) in Hg.
  - rewrite <- Hs, <- (validate_lsid_run st s Hs). apply validate_lsid_frame.
  - rewrite <- (validate_lsid_run st s Hs). apply validate_lsid_frame.
  - rewrite <- (validate_lsid_run st s Hs). apply validate_lsid_frame.
Qed.

Lemma validate_lsid_well_formed_witness :
  validate_lsid (holding "urn:lsid:nmbe.ch:spidersp:021946")
  = (Ret true,
     set_trace [valid_message] (holding "urn:lsid:nmbe.ch:spidersp:021946"))
  /\ validate_lsid (holding "urn:lsrsp:021946")
     = (Raise not_well_formed, holding "urn:lsrsp:021946")
  /\ validate_lsid (holding "urn:lsid:authority:")
     = (Raise not_well_formed, holding "urn:lsid:authority:").
Proof.
  split; [|split].
  - apply (proj1 (validate_lsid_well_formed
                    (holding "urn:lsid:nmbe.ch:spidersp:021946")
                    "urn:lsid:nmbe.ch:spidersp:021946" eq_refl)).
    reflexivity.
  - apply (proj1 (proj2 (validate_lsid_well_formed
                           (holding "urn:lsrsp:021946") "urn:lsrsp:021946" eq_refl)));
      reflexivity.
  - apply (proj1 (proj2 (validate_lsid_well_formed
                           (holding "urn:lsid:authority:") "urn:lsid:authority:" eq_refl)));
      reflexivity.
Defined.

(** C1 as stated fails: [urn:lsid:_a:b:c] has three non-empty segments
    over the allowed class, and is rejected because its authority does
    not start with a letter or a digit. *)
Lemma validate_lsid_rejects_allowed_segment :
  spec_grammar "urn:lsid:_a:b:c" = true
  /\ validate_lsid (holding "urn:lsid:_a:b:c")
     = (Raise not_well_formed, holding "urn:lsid:_a:b:c").
Proof. split; reflexivity. Qed.

(** Two more inputs outside the amended statement: a final line feed and
    a letter outside ASCII are both accepted by the pattern. *)
Lemma validate_lsid_accepts_final_line_feed :
  let s := "urn:lsid:a:b:c" +:+ String "010" "" in
  spec_grammar s = false /\ (validate_lsid (holding s)).1 = Ret true.
Proof. split; reflexivity. Qed.

Lemma validate_lsid_accepts_latin1_letter :
  let s := "urn:lsid:a" +:+ String "233" ":b:c" in
  spec_grammar s = false /\ (validate_lsid (holding s)).1 = Ret true.
Proof. split; reflexivity. Qed.

End Validate.

(** ** class Cache *)

Section CacheFacts.
Import Sample.

Lemma check_cache_file_run c p n st :
  check_cache_file c p n st =
    (Ret match fs st !! cache_path p n with
         | Some f =>
             if (utc_clock st - retention <=? mtime f + utc_offset st)%Z
             then PyBytes (content f) else PyBool false
         | None => PyBool false
         end, st).
Proof.
  unfold check_cache_file, bind, get, cache_path.
  destruct (fs st !! _) as [f|]; [|done].
  unfold get_cache_expiration, bind, get, utcnow, fromtimestamp, retention.
  by destruct (_ <=? _)%Z.
Qed.

Lemma store_cache_file_run c p n b st :
  store_cache_file c p n b st =
    (Ret tt, set_fs (<[cache_path p n := File b (utc_clock st)]> (fs st)) st).
Proof. reflexivity. Qed.

Lemma Singleton_call_run st :
  Singleton_call st =
    match Cache_instance st with
    | Some o => (Ret o, st)
    | None => (Ret (next_object st),
               set_instance (Some (next_object st)) (S (next_object st)) st)
    end.
Proof. unfold Singleton_call, bind, get. by destruct (Cache_instance st). Qed.


(** *** Where the model of the file system and of the clock applies *)

Lemma plain_name_no_slash s : plain_name s = true -> no_slash s = true.
Proof.
  unfold plain_name. intros H. repeat (apply andb_true_iff in H as [H _]).
  unfold PyStr.chars in H. induction s as [|a s IH]; [done|].
  cbn [list_ascii_of_string forallb] in H. apply andb_true_iff in H as [Ha Hs].
  cbn [no_slash]. apply andb_true_iff. split; [|by apply IH].
  unfold plain_char in Ha. apply andb_true_iff in Ha as [Ha _].
  by apply andb_true_iff in Ha as [_ Ha].
Qed.

(** The names the file system refuses, or reads as another path, are not
    plain; the names the program stores under are. *)
Lemma plain_name_examples :
  plain_name EmptyString = false /\ plain_name "." = false /\ plain_name ".." = false
  /\ plain_name "./x" = false /\ plain_name "a/b" = false
  /\ plain_name "nmbe.ch" = true /\ plain_name "authority.wsdl" = true
  /\ plain_name "service.wsdl" = true.
Proof. repeat split; vm_compute; reflexivity. Qed.

Lemma tidy_empty st : fs st = ∅ -> tidy st.
Proof. intros E k f. by rewrite E, lookup_empty. Qed.

Lemma tidy_advance dt st : tidy st -> tidy (advance dt st).
Proof. intros H k f Hk. exact (H k f Hk). Qed.

(** A store under plain names keeps the cache directory tidy. *)
Lemma tidy_store c p n b st :
  plain_name p = true -> plain_name n = true -> clock_ok st ->
  tidy st -> tidy (store_cache_file c p n b st).2.
Proof.
  intros Hp Hn Hc Ht k f. rewrite store_cache_file_run.
  cbn [snd fs set_fs]. destruct (decide (k = cache_path p n)) as [->|Hne].
  - rewrite lookup_insert_eq. intros [= <-]. split; [exact Hc|]. by exists p, n.
  - rewrite lookup_insert_ne by done. intros Hk. exact (Ht k f Hk).
Qed.




(** The offset of local time moves the window: [fromtimestamp] is local
    time and [utcnow] is not. *)
Lemma cache_window_follows_utc_offset :
  let east := State None new_authority new_service None 0 ∅ 0 (7200 * 1000000) (network_of HttpHang HttpHang) [] in
  let west := State None new_authority new_service None 0 ∅ 0 (-18000 * 1000000) (network_of HttpHang HttpHang) [] in
  (check_cache_file 0 "a" "n" (advance (176400 * 1000000) (store_cache_file 0 "a" "n" "b" east).2)).1
  = Ret (PyBytes "b")
  /\ (check_cache_file 0 "a" "n" (advance (169200 * 1000000) (store_cache_file 0 "a" "n" "b" west).2)).1
     = Ret (PyBool false).
Proof. split; vm_compute; reflexivity. Qed.

Lemma Singleton_call_again st c :
  Cache_instance st = Some c -> Singleton_call st = (Ret c, st).
Proof. intros H. by rewrite Singleton_call_run, H. Qed.




End CacheFacts.

(** ** Authority.extract_authority_url *)

Section ExtractAuthority.
Import Sample.

Lemma extract_authority_url_not_single wsdl st :
  length (Xml.xpath_authority wsdl) <> 1 ->
  extract_authority_url wsdl st = (Raise no_address_element, st).
Proof.
  intros Hlen. unfold extract_authority_url, bind, try_except.
  destruct (Xml.xpath_authority wsdl) as [|node [|]]; try done.
Qed.

Lemma extract_authority_url_single wsdl node st :
  Xml.xpath_authority wsdl = [node] ->
  extract_authority_url wsdl st =
    match Xml.get node "location" with
    | Some v =>
        if PyStr.truthy v then (Ret tt, bound v st) else (Raise no_binding_value, bound v st)
    | None =>
        (Raise none_in_concatenation,
         set_authority (set_authority_url None (authority_of st)) st)
    end.
Proof.
  intros Hx. unfold extract_authority_url, bind, try_except. rewrite Hx.
  cbn. destruct (Xml.get node "location") as [[|c v]|]; reflexivity.
Qed.

(** C5, as amended.  The extraction raises [NoElementError] exactly when
    the address elements under the matching ports are not exactly one.
    When there is exactly one and it has a location, [authority_url]
    becomes that location; the call returns when the location is not
    empty and raises [NoValueError] when it is. *)
Theorem extract_authority_url_outcome (wsdl : Xml.element) (st : state) :
  ((extract_authority_url wsdl st).1 = Raise no_address_element
   <-> length (Xml.xpath_authority wsdl) <> 1)
  /\ (forall node v,
        Xml.xpath_authority wsdl = [node] -> Xml.get node "location" = Some v ->
        authority_url (authority_of (extract_authority_url wsdl st).2) = Some v
        /\ extract_authority_url wsdl st =
             if PyStr.truthy v then (Ret tt, bound v st)
             else (Raise no_binding_value, bound v st)).
Proof.
  split.
  - split.
    + intros Hr Hlen.
      destruct (Xml.xpath_authority wsdl) as [|node [|]] eqn:Hx; try done.
      rewrite (extract_authority_url_single wsdl node st Hx) in Hr.
      destruct (Xml.get node "location") as [v|]; [|done].
      by destruct (PyStr.truthy v).
    + intros Hlen. by rewrite extract_authority_url_not_single.
  - intros node v Hx Hv.
    rewrite (extract_authority_url_single wsdl node st Hx), Hv.
    split; [|done]. by destruct (PyStr.truthy v).
Qed.

Lemma extract_authority_url_outcome_witness :
  extract_authority_url authority_doc (holding "urn:lsid:nmbe.ch:spidersp:021946")
  = (Ret tt, bound "https://lsid.nmbe.ch:443" (holding "urn:lsid:nmbe.ch:spidersp:021946"))
  /\ (extract_authority_url (Xml.Element (Xml.QName "" "root") ∅ [])
        (holding "urn:lsid:nmbe.ch:spidersp:021946")).1
     = Raise no_address_element.
Proof.
  split.
  - apply (proj2 (proj2 (extract_authority_url_outcome authority_doc
                           (holding "urn:lsid:nmbe.ch:spidersp:021946"))
                    (address "https://lsid.nmbe.ch:443") "https://lsid.nmbe.ch:443"
                    eq_refl eq_refl)).
  - apply (proj1 (extract_authority_url_outcome (Xml.Element (Xml.QName "" "root") ∅ [])
                    (holding "urn:lsid:nmbe.ch:spidersp:021946"))).
    vm_compute. discriminate.
Defined.

(** C5 as stated fails: of two ports with the authority binding one has
    an address, and the extraction succeeds; with one such port that has
    no address it raises [NoElementError]. *)
Lemma extract_authority_url_counts_addresses :
  let st := holding "urn:lsid:nmbe.ch:spidersp:021946" in
  (length (Xml.ports "LSIDAuthorityHTTPBinding" two_ports_one_address) = 2
   /\ (extract_authority_url two_ports_one_address st).1 = Ret tt)
  /\ (length (Xml.ports "LSIDAuthorityHTTPBinding" port_without_address) = 1
      /\ (extract_authority_url port_without_address st).1 = Raise no_address_element).
Proof. repeat split; vm_compute; reflexivity. Qed.

(** Outside the amended statement: an address without a location stops
    at the console line, with [TypeError]. *)
Lemma extract_authority_url_missing_location :
  (extract_authority_url address_without_location
     (holding "urn:lsid:nmbe.ch:spidersp:021946")).1
  = Raise none_in_concatenation.
Proof. vm_compute. reflexivity. Qed.

End ExtractAuthority.

(** ** class Service *)

Section ServiceFacts.
Import Sample.

Lemma extract_service_url_steps wsdl st :
  extract_service_url wsdl st =
    match data_step (Xml.xpath_data wsdl) st with
    | (Ret _, st1) => metadata_step (Xml.xpath_metadata wsdl) st1
    | (Raise e, st1) => (Raise e, st1)
    | (Blocked, st1) => (Blocked, st1)
    end.
Proof.
  unfold extract_service_url, bind, try_except, data_step, metadata_step.
  destruct (Xml.xpath_data wsdl) as [|d [|]]; cbn;
    try (destruct (Xml.xpath_metadata wsdl) as [|m [|]]; cbn;
         try destruct (Xml.get m "location"); reflexivity).
  destruct (Xml.get d "location"); cbn; [|reflexivity].
  destruct (Xml.xpath_metadata wsdl) as [|m [|]]; cbn;
    try destruct (Xml.get m "location"); reflexivity.
Qed.

(** C6 fails on the code at a data binding whose address has no
    location: the console line of the first [try] block raises
    [TypeError], which [except ValueError] does not catch, and the metadata
    binding of the same document is never looked at. *)
Theorem extract_service_url_data_without_location :
  let st := holding "urn:lsid:nmbe.ch:spidersp:021946" in
  Xml.xpath_metadata data_without_location
    = [address "https://lsid.nmbe.ch/authority/metadata"]
  /\ (extract_service_url data_without_location st).1 = Raise none_in_concatenation
  /\ metadata_url (service_of (extract_service_url data_without_location st).2) = None.
Proof. repeat split; vm_compute; reflexivity. Qed.

(** Where every address found has a location, the two extractions do
    not raise and do not depend on each other. *)
Lemma extract_service_url_independent wsdl st :
  (forall node, Xml.xpath_data wsdl = [node] -> is_Some (Xml.get node "location")) ->
  (forall node, Xml.xpath_metadata wsdl = [node] -> is_Some (Xml.get node "location")) ->
  let st' := (extract_service_url wsdl st).2 in
  (extract_service_url wsdl st).1 = Ret tt
  /\ data_url (service_of st')
     = match Xml.xpath_data wsdl with
       | [node] => Xml.get node "location"
       | _ => data_url (service_of st)
       end
  /\ metadata_url (service_of st')
     = match Xml.xpath_metadata wsdl with
       | [node] => Xml.get node "location"
       | _ => metadata_url (service_of st)
       end.
Proof.
  intros Hd Hm. cbv zeta. rewrite extract_service_url_steps.
  unfold data_step, metadata_step.
  destruct (Xml.xpath_data wsdl) as [|d [|]]; cbn;
    try (destruct (Xml.xpath_metadata wsdl) as [|m [|]]; cbn; try done;
         destruct (Hm m eq_refl) as [v ->]; done).
  destruct (Hd d eq_refl) as [w ->]. cbn.
  destruct (Xml.xpath_metadata wsdl) as [|m [|]]; cbn; try done.
  destruct (Hm m eq_refl) as [v ->]. done.
Qed.

(** A document with neither binding: two console lines, no exception,
    both endpoints as they were. *)
Lemma extract_service_url_no_binding wsdl st :
  Xml.xpath_data wsdl = [] -> Xml.xpath_metadata wsdl = [] ->
  extract_service_url wsdl st
  = (Ret tt, said "No metadata service endpoint found"
               (said "No data service endpoint found" st)).
Proof. intros Hd Hm. rewrite extract_service_url_steps, Hd, Hm. reflexivity. Qed.

(** C10.  Without a data endpoint [get_data] returns [False]; without a
    metadata endpoint [get_metadata] returns [None].  Either call prints
    one line, raises nothing and makes no network call. *)
Theorem absent_payload_markers (st : state) (id : option string) :
  (data_url (service_of st) = None ->
     get_data id st = (Ret (PyBool false), said "No data URL available" st)
     /\ network_events (get_data id st).2 = network_events st)
  /\ (metadata_url (service_of st) = None ->
        get_metadata id st = (Ret PyNone, said "No metadata URL available" st)
        /\ network_events (get_metadata id st).2 = network_events st).
Proof.
  split; intros H.
  - assert (E : get_data id st = (Ret (PyBool false), said "No data URL available" st))
      by (unfold get_data, bind, get; by rewrite H).
    split; [done|]. rewrite E. unfold said. cbn [snd].
    by rewrite network_events_snoc, app_nil_r.
  - assert (E : get_metadata id st = (Ret PyNone, said "No metadata URL available" st))
      by (unfold get_metadata, bind, get; by rewrite H).
    split; [done|]. rewrite E. unfold said. cbn [snd].
    by rewrite network_events_snoc, app_nil_r.
Qed.

Lemma absent_payload_markers_witness :
  (get_data (Some nmbe_lsid) (holding nmbe_lsid)).1 = Ret (PyBool false)
  /\ (get_metadata (Some nmbe_lsid) (holding nmbe_lsid)).1 = Ret PyNone.
Proof.
  split.
  - rewrite (proj1 (proj1 (absent_payload_markers (holding nmbe_lsid) (Some nmbe_lsid))
                      eq_refl)).
    reflexivity.
  - rewrite (proj1 (proj2 (absent_payload_markers (holding nmbe_lsid) (Some nmbe_lsid))
                      eq_refl)).
    reflexivity.
Defined.

(** The request of [get_data] and of [get_metadata]. *)
Lemma urlopen_read_run url timeout st :
  urlopen_read url timeout st =
    let st1 := set_trace (trace st ++ [HttpGet url timeout]) st in
    match http (net st) url with
    | HttpBody b => (Ret b, st1)
    | HttpRaise e => (Raise e, st1)
    | HttpHang =>
        match timeout with
        | Some _ => (Raise (Exn SocketTimeout "timed out"), st1)
        | None => (Blocked, st1)
        end
    end.
Proof.
  unfold urlopen_read, bind, emit, modify, get. cbn.
  destruct (http (net st) url); [done..|]. by destruct timeout.
Qed.

(** C9 fails on the code for the two payload requests: [urlopen] is
    called without a timeout, and a peer that never answers blocks the
    call. *)
Theorem payload_requests_pass_no_timeout (st : state) (base id : string) :
  (data_url (service_of st) = Some base ->
     trace (get_data (Some id) st).2 = trace st ++ [HttpGet (base +:+ "?lsid=" +:+ id) None]
     /\ (http (net st) (base +:+ "?lsid=" +:+ id) = HttpHang ->
         (get_data (Some id) st).1 = Blocked))
  /\ (metadata_url (service_of st) = Some base ->
        trace (get_metadata (Some id) st).2 = trace st ++ [HttpGet (base +:+ "?lsid=" +:+ id) None]
        /\ (http (net st) (base +:+ "?lsid=" +:+ id) = HttpHang ->
            (get_metadata (Some id) st).1 = Blocked)).
Proof.
  split; intros H.
  - unfold get_data, bind, get, as_str, ret. rewrite H, urlopen_read_run. cbn.
    destruct (http (net st) _); split; done.
  - unfold get_metadata, bind, get, as_str, ret. rewrite H, urlopen_read_run. cbn.
    destruct (http (net st) _); split; done.
Qed.

Lemma payload_requests_pass_no_timeout_witness :
  let url := "https://lsid.nmbe.ch/authority/data?lsid=urn:lsid:nmbe.ch:spidersp:021946" in
  let st := discovered HttpHang (HttpBody "metadata") in
  trace (get_data (Some nmbe_lsid) st).2 = trace st ++ [HttpGet url None]
  /\ (get_data (Some nmbe_lsid) st).1 = Blocked.
Proof.
  cbv zeta.
  destruct (proj1 (payload_requests_pass_no_timeout
                     (discovered HttpHang (HttpBody "metadata"))
                     "https://lsid.nmbe.ch/authority/data" nmbe_lsid) eq_refl)
    as [Htrace Hblocked].
  split; [exact Htrace | exact (Hblocked eq_refl)].
Defined.

End ServiceFacts.

(** ** Authority.set_service_url *)

Section Location.
Import Sample.

Lemma dns_query_run qname rdtype st :
  dns_query qname rdtype st =
    let st1 := set_trace (trace st ++ [DnsQuery qname rdtype]) st in
    match dns_srv (net st) qname with
    | DnsAnswer l => (Ret l, st1)
    | DnsRaise e => (Raise e, st1)
    end.
Proof.
  unfold dns_query, bind, emit, modify, get. cbn.
  by destruct (dns_srv (net st) qname).
Qed.

Lemma loop_body_run d st :
  target_text d <> "" -> loop_body d st = (Ret tt, record_step st d).
Proof.
  intros Hne. unfold loop_body, record_step, target_line, strip_dot.
  destruct (PyStr.last_char (target_text d)) as [c|] eqn:Hc.
  - destruct (Ascii.eqb c "."); reflexivity.
  - exfalso. apply Hne. unfold PyStr.last_char, PyStr.chars in Hc.
    destruct (target_text d); [done|]. simpl in Hc.
    by apply last_None in Hc.
Qed.

Lemma for_each_records answers st :
  Forall (fun d => target_text d <> "") answers ->
  for_each answers loop_body st = (Ret tt, fold_left record_step answers st).
Proof.
  intros H. revert st. induction H as [|d answers Hd _ IH]; intros st; [done|].
  cbn [for_each fold_left]. unfold bind at 1. rewrite (loop_body_run d st Hd).
  apply IH.
Qed.

Lemma fold_record_step_trace answers st :
  trace (fold_left record_step answers st) = trace st ++ map target_line answers.
Proof.
  revert st. induction answers as [|d answers IH]; intros st; cbn [fold_left map].
  - by rewrite app_nil_r.
  - rewrite IH. unfold record_step. cbn [trace set_trace set_authority].
    by rewrite <- app_assoc.
Qed.

Lemma fold_record_step_last answers d st :
  last answers = Some d ->
  exists st0, fold_left record_step answers st = record_step st0 d.
Proof.
  intros (init & ->)%last_Some. rewrite fold_left_app.
  by exists (fold_left record_step init st).
Qed.

Lemma fold_record_step_frame answers st :
  let st' := fold_left record_step answers st in
  net st' = net st /\ url_part (authority_of st') = url_part (authority_of st).
Proof.
  revert st. induction answers as [|d answers IH]; intros st; [done|].
  cbn [fold_left]. destruct (IH (record_step st d)) as [-> ->]. done.
Qed.

(** C8.  [set_service_url] asks for the SRV records of
    [_lsid._tcp.<authority>].  For a non-empty answer whose targets have
    a text, every record is printed with its target stripped of a final
    dot, and the host and port kept are those of the last record; the
    call raises [NoValueError] when that host is empty, so in particular
    when no record has a non-empty host. *)
Theorem set_service_url_last_record (st : state) (part : string)
    (answers : list srv_record) (d : srv_record) :
  url_part (authority_of st) = Some part ->
  dns_srv (net st) ("_lsid._tcp." +:+ part) = DnsAnswer answers ->
  last answers = Some d ->
  Forall (fun r => target_text r <> "") answers ->
  let r := set_service_url st in
  trace r.2 = trace st ++ DnsQuery ("_lsid._tcp." +:+ part) "SRV" :: map target_line answers
  /\ service_url (authority_of r.2) = Some (strip_dot (target_text d))
  /\ service_port (authority_of r.2) = Some (PyStr.str_of_N (port d))
  /\ r.1 = (if PyStr.truthy (strip_dot (target_text d)) then Ret tt
            else Raise no_service_location)
  /\ (Forall (fun r => strip_dot (target_text r) = "") answers ->
      r.1 = Raise no_service_location).
Proof.
  intros Hpart Hdns Hlast Htext. cbv zeta.
  set (st1 := set_trace (trace st ++ [DnsQuery ("_lsid._tcp." +:+ part) "SRV"]) st).
  set (st2 := fold_left record_step answers st1).
  destruct (fold_record_step_last answers d st1 Hlast) as [st0 Hst0].
  assert (Hrun : set_service_url st =
                 (if PyStr.truthy (strip_dot (target_text d)) then Ret tt
                  else Raise no_service_location, st2)).
  { unfold set_service_url.
    erewrite bind_ret_run by reflexivity. rewrite Hpart.
    erewrite bind_ret_run by reflexivity.
    erewrite bind_ret_run by (rewrite dns_query_run, Hdns; reflexivity).
    erewrite bind_ret_run by (apply (for_each_records answers _ Htext)).
    fold st1. fold st2.
    erewrite bind_ret_run by reflexivity. subst st2. rewrite Hst0.
    cbn [record_step authority_of set_trace set_authority service_url set_service_port set_service_url_field].
    by destruct (strip_dot (target_text d)). }
  rewrite Hrun. cbn [fst snd]. repeat split.
  - subst st2. rewrite fold_record_step_trace. subst st1. cbn [trace set_trace].
    by rewrite <- app_assoc.
  - subst st2. by rewrite Hst0.
  - subst st2. by rewrite Hst0.
  - intros Hall. rewrite Forall_forall in Hall.
    rewrite (Hall d); [done|]. apply last_Some_elem_of. exact Hlast.
Qed.

Lemma set_service_url_last_record_witness :
  let st := set_authority (set_url_part (Some "example.org") new_authority)
              (process ∅ 1000 two_records) in
  service_url (authority_of (set_service_url st).2) = Some "second.example.org"
  /\ service_port (authority_of (set_service_url st).2) = Some "443"
  /\ (set_service_url st).1 = Ret tt.
Proof.
  cbv zeta.
  destruct (set_service_url_last_record
              (set_authority (set_url_part (Some "example.org") new_authority)
                 (process ∅ 1000 two_records))
              "example.org"
              [SRV "first.example.org" 8080; SRV "second.example.org." 443]
              (SRV "second.example.org." 443) eq_refl eq_refl eq_refl)
    as (_ & Hurl & Hport & Hret & _).
  - repeat constructor; discriminate.
  - cbv zeta in Hurl, Hport, Hret. by rewrite Hurl, Hport, Hret.
Defined.

End Location.

(** ** The two fetches *)

Section Fetch.
Import Sample.
Variable fromstring : bytes -> option Xml.element.

Lemma Singleton_call_instance st :
  Singleton_call st = (Ret (instance_of st), with_instance st).
Proof.
  rewrite Singleton_call_run. unfold instance_of, with_instance.
  by destruct (Cache_instance st).
Qed.

Lemma with_instance_frame st :
  let st' := with_instance st in
  lsid st' = lsid st /\ authority_of st' = authority_of st /\ service_of st' = service_of st
  /\ fs st' = fs st /\ utc_clock st' = utc_clock st /\ utc_offset st' = utc_offset st
  /\ net st' = net st /\ trace st' = trace st
  /\ Cache_instance st' = Some (instance_of st).
Proof.
  unfold with_instance, instance_of. by destruct (Cache_instance st) eqn:E.
Qed.

Lemma with_instance_idem st : with_instance (with_instance st) = with_instance st.
Proof. unfold with_instance. by destruct (Cache_instance st) eqn:E; cbn; rewrite ?E. Qed.

(** The lookup only looks at the files and the clock. *)
Lemma check_cache_file_frame c c' p n st st' :
  fs st' = fs st -> utc_clock st' = utc_clock st -> utc_offset st' = utc_offset st ->
  check_cache_file c p n st' = ((check_cache_file c' p n st).1, st').
Proof.
  intros Hfs Hclock Hoff. rewrite !check_cache_file_run, Hfs, Hclock, Hoff. done.
Qed.

Lemma network_events_frame st st' :
  trace st' = trace st -> network_events st' = network_events st.
Proof. unfold network_events. by intros ->. Qed.

Lemma network_events_said line st :
  network_events (said line st) = network_events st.
Proof. unfold said. by rewrite network_events_snoc, app_nil_r. Qed.

Lemma extract_authority_url_quiet wsdl st :
  network_events (extract_authority_url wsdl st).2 = network_events st.
Proof.
  destruct (Xml.xpath_authority wsdl) as [|node [|]] eqn:Hx.
  - by rewrite extract_authority_url_not_single by (by rewrite Hx).
  - rewrite (extract_authority_url_single wsdl node st Hx).
    destruct (Xml.get node "location") as [v|]; [|done].
    assert (network_events (bound v st) = network_events st).
    { unfold bound. cbv zeta. by rewrite network_events_snoc, app_nil_r. }
    by destruct (PyStr.truthy v).
  - by rewrite extract_authority_url_not_single by (by rewrite Hx).
Qed.

Lemma extract_service_url_quiet wsdl st :
  network_events (extract_service_url wsdl st).2 = network_events st.
Proof.
  rewrite extract_service_url_steps.
  assert (Hd : forall nodes s, network_events (data_step nodes s).2 = network_events s).
  { intros nodes s. unfold data_step.
    destruct nodes as [|d [|]]; cbn [snd]; rewrite ?network_events_said; try done.
    cbv zeta. destruct (Xml.get d "location"); cbn [snd]; by rewrite ?network_events_said. }
  assert (Hm : forall nodes s, network_events (metadata_step nodes s).2 = network_events s).
  { intros nodes s. unfold metadata_step.
    destruct nodes as [|d [|]]; cbn [snd]; rewrite ?network_events_said; try done.
    cbv zeta. destruct (Xml.get d "location"); cbn [snd]; by rewrite ?network_events_said. }
  specialize (Hd (Xml.xpath_data wsdl) st).
  destruct (data_step (Xml.xpath_data wsdl) st) as [[[]|e|] st1]; cbn in Hd; try done.
  by rewrite Hm.
Qed.

Lemma etree_then_quiet (extract : Xml.element -> M unit) b st :
  (forall wsdl s, network_events (extract wsdl s).2 = network_events s) ->
  network_events ((bind (etree_fromstring fromstring b) extract) st).2 = network_events st.
Proof.
  intros Hq. unfold bind, etree_fromstring. destruct (fromstring b); cbn; [apply Hq | done].
Qed.

Lemma authority_hit st part :
  url_part (authority_of st) = Some part ->
  on_hit fromstring (get_authority_wsdl fromstring) extract_authority_url
    part "authority.wsdl" "Cached authority.wsdl file available" st.
Proof.
  intros Hpart b Hcheck Hb.
  destruct (with_instance_frame st) as (_ & Ha & _ & Hfs & Hclock & Hoff & _ & Htrace & _).
  assert (Hrun : get_authority_wsdl fromstring st =
                 (bind (etree_fromstring fromstring b) extract_authority_url)
                   (said "Cached authority.wsdl file available" (with_instance st))).
  { unfold get_authority_wsdl.
    erewrite bind_ret_run by reflexivity.
    erewrite bind_ret_run by apply Singleton_call_instance.
    rewrite Hpart. erewrite bind_ret_run by reflexivity.
    erewrite bind_ret_run
      by (rewrite (check_cache_file_frame _ 0 _ _ st) by done; rewrite Hcheck; reflexivity).
    cbn [truthy]. rewrite Hb. cbn [negb].
    unfold bind at 1. unfold bind at 1. cbn. fold (said "Cached authority.wsdl file available" (with_instance st)).
    unfold bind, etree_fromstring.
    destruct (fromstring b); reflexivity. }
  split; [exact Hrun|]. rewrite Hrun.
  rewrite etree_then_quiet by apply extract_authority_url_quiet.
  rewrite network_events_said. by apply network_events_frame.
Qed.

Lemma authority_miss st part host port :
  url_part (authority_of st) = Some part ->
  service_url (authority_of st) = Some host ->
  service_port (authority_of st) = Some port ->
  on_miss fromstring (get_authority_wsdl fromstring) extract_authority_url
    part "authority.wsdl" "No authority.wsdl file cached or file expired"
    (authority_source host port) st.
Proof.
  intros Hpart Hhost Hport v Hcheck Hv.
  destruct (with_instance_frame st) as (_ & Ha & _ & Hfs & Hclock & Hoff & Hnet & Htrace & Hinst).
  cbv zeta.
  set (st1 := said "No authority.wsdl file cached or file expired" (with_instance st)).
  set (url := authority_source host port).
  set (st2 := set_trace (trace st1 ++ [GET url]) st1).
  assert (Hrun : get_authority_wsdl fromstring st =
                 bind (bind (urlopen_read url (Some 120%Z)) (fun wsdl_content =>
                       bind (etree_fromstring fromstring wsdl_content) (fun wsdl =>
                       bind (cache_instance (authority_of st)) (fun cache =>
                       bind (store_cache_file cache part "authority.wsdl" wsdl_content) (fun _ =>
                       ret wsdl)))))
                   extract_authority_url st1).
  { unfold get_authority_wsdl.
    erewrite bind_ret_run by reflexivity.
    erewrite bind_ret_run by apply Singleton_call_instance.
    rewrite Hpart. erewrite bind_ret_run by reflexivity.
    erewrite bind_ret_run
      by (rewrite (check_cache_file_frame _ 0 _ _ st) by done; rewrite Hcheck; reflexivity).
    rewrite Hv. cbn [negb].
    rewrite bind_assoc_run. erewrite bind_ret_run by apply print_run. fold st1.
    rewrite bind_assoc_run. erewrite bind_ret_run by reflexivity.
    assert (Ha1 : authority_of st1 = authority_of st) by (subst st1; exact Ha).
    rewrite Ha1, Hhost, Hport.
    rewrite bind_assoc_run. erewrite bind_ret_run by reflexivity.
    rewrite bind_assoc_run. erewrite bind_ret_run by reflexivity.
    reflexivity. }
  assert (Hnet1 : net st1 = net st) by (subst st1; exact Hnet).
  assert (Hev : network_events st2 = network_events st ++ [GET url]).
  { subst st2. rewrite network_events_snoc. subst st1.
    rewrite network_events_said, (network_events_frame st (with_instance st) Htrace). done. }
  rewrite Hrun.
  pose proof (urlopen_read_run url (Some 120%Z) st1) as Hopen.
  cbv zeta in Hopen. fold (GET url) in Hopen. fold st2 in Hopen. rewrite Hnet1 in Hopen.
  destruct (http (net st) url) as [body|e|].
  - step (exact Hopen).
    unfold etree_fromstring. destruct (fromstring body) as [wsdl|].
    + step reflexivity.
      assert (Hinst2 : Cache_instance st2 = Some (instance_of st)) by (subst st2 st1; exact Hinst).
      step (apply Singleton_call_again; exact Hinst2).
      step (apply store_cache_file_run).
      step reflexivity.
      assert (Hfs2 : fs st2 = fs st) by (subst st2 st1; exact Hfs).
      assert (Hclock2 : utc_clock st2 = utc_clock st) by (subst st2 st1; exact Hclock).
      rewrite Hfs2, Hclock2. split; [|done].
      rewrite extract_authority_url_quiet. exact Hev.
    + step reflexivity. by split.
  - step (exact Hopen). by split.
  - step (exact Hopen). by split.
Qed.

Lemma service_hit st base part id :
  on_hit fromstring (get_service_wsdl fromstring base (Some part) id) extract_service_url
    part "service.wsdl" "Cached service.wsdl file available" st.
Proof.
  intros b Hcheck Hb.
  destruct (with_instance_frame st) as (_ & _ & _ & Hfs & Hclock & Hoff & _ & Htrace & _).
  assert (Hrun : get_service_wsdl fromstring base (Some part) id st =
                 (bind (etree_fromstring fromstring b) extract_service_url)
                   (said "Cached service.wsdl file available" (with_instance st))).
  { unfold get_service_wsdl.
    step reflexivity.
    step (apply Singleton_call_instance).
    step reflexivity.
    step (rewrite (check_cache_file_frame _ 0 _ _ st) by done; rewrite Hcheck; reflexivity).
    cbn [truthy]. rewrite Hb. cbn [negb].
    step (apply print_run). reflexivity. }
  split; [exact Hrun|]. rewrite Hrun.
  rewrite etree_then_quiet by apply extract_service_url_quiet.
  rewrite network_events_said. by apply network_events_frame.
Qed.

Lemma service_miss st base part id :
  on_miss fromstring (get_service_wsdl fromstring (Some base) (Some part) (Some id))
    extract_service_url
    part "service.wsdl" "No service.wsdl file cached or file expired"
    (service_source base id) st.
Proof.
  intros v Hcheck Hv.
  destruct (with_instance_frame st) as (_ & _ & _ & Hfs & Hclock & Hoff & Hnet & Htrace & Hinst).
  cbv zeta.
  set (st1 := said "No service.wsdl file cached or file expired" (with_instance st)).
  set (url := service_source base id).
  set (st2 := set_trace (trace st1 ++ [GET url]) st1).
  assert (Hnet1 : net st1 = net st) by (subst st1; exact Hnet).
  assert (Hev : network_events st2 = network_events st ++ [GET url]).
  { subst st2. rewrite network_events_snoc. subst st1.
    rewrite network_events_said, (network_events_frame st (with_instance st) Htrace). done. }
  pose proof (urlopen_read_run url (Some 120%Z) st1) as Hopen.
  cbv zeta in Hopen. fold (GET url) in Hopen. fold st2 in Hopen. rewrite Hnet1 in Hopen.
  unfold get_service_wsdl.
  step reflexivity.
  step (apply Singleton_call_instance).
  step reflexivity.
  step (rewrite (check_cache_file_frame _ 0 _ _ st) by done; rewrite Hcheck; reflexivity).
  rewrite Hv. cbn [negb].
  step (apply print_run). fold st1.
  step reflexivity. step reflexivity.
  fold (service_source base id). fold url.
  destruct (http (net st) url) as [body|e|].
  - step (exact Hopen).
    unfold etree_fromstring. destruct (fromstring body) as [wsdl|].
    + step reflexivity. step reflexivity.
      assert (Hinst2 : Cache_instance st2 = Some (instance_of st)) by (subst st2 st1; exact Hinst).
      step (apply Singleton_call_again; exact Hinst2).
      step (apply store_cache_file_run).
      step reflexivity.
      assert (Hfs2 : fs st2 = fs st) by (subst st2 st1; exact Hfs).
      assert (Hclock2 : utc_clock st2 = utc_clock st) by (subst st2 st1; exact Hclock).
      rewrite Hfs2, Hclock2. split; [|done].
      rewrite extract_service_url_quiet. exact Hev.
    + step reflexivity. by split.
  - step (exact Hopen). by split.
  - step (exact Hopen). by split.
Qed.

(** C4, as amended.  Both fetches consult the cache first.  A fresh
    entry that holds at least one byte is parsed and handed to the
    extraction without any network call.  Otherwise (no entry, an
    expired one, or a fresh one without bytes) there is exactly one GET of
    the source with a timeout of 120 seconds; a body that parses is stored
    under the key and handed to the extraction, and a failed request or
    an unparsable body ends the fetch with no second attempt. *)
Theorem fetch_is_cache_first (st : state) (part host port base id : string) :
  (url_part (authority_of st) = Some part ->
     on_hit fromstring (get_authority_wsdl fromstring) extract_authority_url
       part "authority.wsdl" "Cached authority.wsdl file available" st
     /\ (service_url (authority_of st) = Some host ->
         service_port (authority_of st) = Some port ->
         on_miss fromstring (get_authority_wsdl fromstring) extract_authority_url
           part "authority.wsdl" "No authority.wsdl file cached or file expired"
           (authority_source host port) st))
  /\ on_hit fromstring (get_service_wsdl fromstring (Some base) (Some part) (Some id))
       extract_service_url part "service.wsdl" "Cached service.wsdl file available" st
  /\ on_miss fromstring (get_service_wsdl fromstring (Some base) (Some part) (Some id))
       extract_service_url part "service.wsdl" "No service.wsdl file cached or file expired"
       (service_source base id) st.
Proof.
  split; [|split].
  - intros Hpart. split; [by apply authority_hit|].
    intros Hhost Hport. by apply authority_miss.
  - apply service_hit.
  - apply service_miss.
Qed.

End Fetch.

Section FetchExamples.
Import Sample.

Lemma fetch_is_cache_first_witness :
  let cached := located {[ cache_path "nmbe.ch" "authority.wsdl" := File authority_bytes 1000 ]} in
  let empty := located ∅ in
  network_events (get_authority_wsdl fromstring cached).2 = network_events cached
  /\ network_events (get_authority_wsdl fromstring empty).2
     = network_events empty ++ [GET "https://lsid.nmbe.ch:443/authority/"].
Proof.
  cbv zeta. split.
  - exact (proj2 (proj1 (proj1 (fetch_is_cache_first fromstring
                                  (located {[ cache_path "nmbe.ch" "authority.wsdl"
                                              := File authority_bytes 1000 ]})
                                  "nmbe.ch" "lsid.nmbe.ch" "443" "" "")
                           eq_refl)
                    authority_bytes eq_refl eq_refl)).
  - exact (proj1 (proj2 (proj1 (fetch_is_cache_first fromstring (located ∅)
                                  "nmbe.ch" "lsid.nmbe.ch" "443" "" "")
                           eq_refl)
                    eq_refl eq_refl (PyBool false) eq_refl eq_refl)).
Defined.

(** C4 as stated fails for a fresh entry without bytes: the lookup
    returns it, and the fetch goes to the network all the same. *)
Lemma fetch_refetches_empty_entry :
  let st := located {[ cache_path "nmbe.ch" "authority.wsdl" := File "" 1000 ]} in
  (check_cache_file 0 "nmbe.ch" "authority.wsdl" st).1 = Ret (PyBytes "")
  /\ network_events (get_authority_wsdl fromstring st).2
     = network_events st ++ [GET "https://lsid.nmbe.ch:443/authority/"].
Proof. split; vm_compute; reflexivity. Qed.

End FetchExamples.

(** ** Resolver.resolve_lsid: the payload requests *)

Section Retrieve.
Variable fromstring : bytes -> option Xml.element.

Lemma resolve_after_discover st st1 :
  discover fromstring st = (Ret tt, st1) ->
  resolve_lsid fromstring st =
    match retrieve st1 with
    | (Raise e, st2) => (Ret tt, failure_lines e st2)
    | r => r
    end.
Proof.
  intros Hd. unfold resolve_lsid, try_except.
  erewrite bind_ret_run by exact Hd.
  destruct (retrieve st1) as [[[]|e|] st2]; reflexivity.
Qed.

Lemma get_data_run st id base :
  data_url (service_of st) = Some base ->
  get_data (Some id) st =
    let st1 := set_trace (trace st ++ [payload_get base id]) st in
    match http (net st) (base +:+ "?lsid=" +:+ id) with
    | HttpBody b => (Ret (PyBytes b), st1)
    | HttpRaise e => (Raise e, st1)
    | HttpHang => (Blocked, st1)
    end.
Proof.
  intros H. unfold get_data, bind, get, as_str, ret. rewrite H, urlopen_read_run. cbn.
  by destruct (http (net st) _).
Qed.

Lemma get_metadata_run st id base :
  metadata_url (service_of st) = Some base ->
  get_metadata (Some id) st =
    let st1 := set_trace (trace st ++ [payload_get base id]) st in
    match http (net st) (base +:+ "?lsid=" +:+ id) with
    | HttpBody b => (Ret (PyBytes b), st1)
    | HttpRaise e => (Raise e, st1)
    | HttpHang => (Blocked, st1)
    end.
Proof.
  intros H. unfold get_metadata, bind, get, as_str, ret. rewrite H, urlopen_read_run. cbn.
  by destruct (http (net st) _).
Qed.

Lemma retrieve_run st id durl murl :
  lsid st = Some id ->
  data_url (service_of st) = Some durl ->
  metadata_url (service_of st) = Some murl ->
  let st1 := set_trace (trace st ++ [Print (PyStr "Data:"); payload_get durl id]) st in
  match http (net st) (durl +:+ "?lsid=" +:+ id) with
  | HttpBody b =>
      network_events (retrieve st).2
      = network_events st ++ [payload_get durl id; payload_get murl id]
  | HttpRaise e => retrieve st = (Raise e, st1)
  | HttpHang => retrieve st = (Blocked, st1)
  end.
Proof.
  intros Hid Hd Hm. cbv zeta. unfold retrieve.
  step (apply print_run). step reflexivity.
  assert (Hd' : data_url (service_of (said "Data:" st)) = Some durl) by exact Hd.
  pose proof (get_data_run (said "Data:" st) id durl Hd') as Hget.
  cbv zeta in Hget. cbn [net said set_trace trace] in Hget.
  rewrite <- app_assoc in Hget. cbn [app] in Hget.
  cbn [lsid said set_trace]. rewrite Hid.
  destruct (http (net st) (durl +:+ "?lsid=" +:+ id)) as [b|e|].
  - step (exact Hget). step reflexivity. step reflexivity. step reflexivity.
    cbn [lsid said set_trace]. rewrite Hid.
    match goal with
    | |- context [bind (get_metadata (Some id)) _ ?s] =>
        assert (Hm' : metadata_url (service_of s) = Some murl) by exact Hm;
        pose proof (get_metadata_run s id murl Hm') as Hmeta;
        assert (Hev : network_events (set_trace (trace s ++ [payload_get murl id]) s)
                      = network_events st ++ [payload_get durl id; payload_get murl id])
    end.
    { rewrite network_events_snoc. cbn [is_network payload_get].
      unfold network_events. cbn [trace set_trace].
      rewrite !filter_app. cbn. rewrite <- !app_assoc. reflexivity. }
    cbv zeta in Hmeta. cbn [net said set_trace] in Hmeta.
    destruct (http (net st) (murl +:+ "?lsid=" +:+ id)) as [b'|e'|].
    + step (exact Hmeta). rewrite print_any. cbn [snd]. rewrite network_events_snoc.
      cbn [is_network]. by rewrite app_nil_r.
    + step (exact Hmeta). exact Hev.
    + erewrite bind_blocked_run by exact Hmeta. exact Hev.
  - step (exact Hget). reflexivity.
  - erewrite bind_blocked_run by exact Hget. reflexivity.
Qed.
Lemma network_events_failure_lines e st :
  network_events (failure_lines e st) = network_events st.
Proof. unfold failure_lines. by rewrite !network_events_said. Qed.

(** C7, as amended.  The two payload requests run one after the other
    inside the single [try] block of [resolve_lsid].  When the data
    request returns, the metadata request is made, whatever becomes of it.
    When the data request raises, the [except] clause prints its two
    lines and the metadata request is not made. *)
Theorem payload_requests_in_sequence (st st1 : state) (id durl murl : string) :
  discover fromstring st = (Ret tt, st1) ->
  lsid st1 = Some id ->
  data_url (service_of st1) = Some durl ->
  metadata_url (service_of st1) = Some murl ->
  let st2 := set_trace (trace st1 ++ [Print (PyStr "Data:"); payload_get durl id]) st1 in
  match http (net st1) (durl +:+ "?lsid=" +:+ id) with
  | HttpBody _ =>
      network_events (resolve_lsid fromstring st).2
      = network_events st1 ++ [payload_get durl id; payload_get murl id]
  | HttpRaise e =>
      resolve_lsid fromstring st = (Ret tt, failure_lines e st2)
      /\ network_events (resolve_lsid fromstring st).2
         = network_events st1 ++ [payload_get durl id]
  | HttpHang => resolve_lsid fromstring st = (Blocked, st2)
  end.
Proof.
  intros Hdisc Hid Hd Hm. cbv zeta.
  rewrite (resolve_after_discover st st1 Hdisc).
  pose proof (retrieve_run st1 id durl murl Hid Hd Hm) as Hrun. cbv zeta in Hrun.
  destruct (http (net st1) (durl +:+ "?lsid=" +:+ id)) as [b|e|].
  - destruct (retrieve st1) as [[[]|e|] st3]; cbn [snd] in *; try done.
    by rewrite network_events_failure_lines.
  - rewrite Hrun. split; [done|]. cbn [snd].
    rewrite network_events_failure_lines.
    unfold network_events. cbn [trace set_trace].
    rewrite filter_app. reflexivity.
  - by rewrite Hrun.
Qed.

End Retrieve.

Section RetrieveExamples.
Import Sample.

Lemma payload_requests_in_sequence_witness :
  network_events (resolve_lsid fromstring (asking (HttpRaise unreachable) (HttpBody "metadata"))).2
  = network_events (discovered (HttpRaise unreachable) (HttpBody "metadata"))
    ++ [payload_get "https://lsid.nmbe.ch/authority/data" nmbe_lsid].
Proof.
  assert (Hdisc : discover fromstring (asking (HttpRaise unreachable) (HttpBody "metadata"))
                  = (Ret tt, discovered (HttpRaise unreachable) (HttpBody "metadata")))
    by (vm_compute; reflexivity).
  assert (Hid : lsid (discovered (HttpRaise unreachable) (HttpBody "metadata")) = Some nmbe_lsid)
    by (vm_compute; reflexivity).
  assert (Hd : data_url (service_of (discovered (HttpRaise unreachable) (HttpBody "metadata")))
               = Some "https://lsid.nmbe.ch/authority/data")
    by (vm_compute; reflexivity).
  assert (Hm : metadata_url (service_of (discovered (HttpRaise unreachable) (HttpBody "metadata")))
               = Some "https://lsid.nmbe.ch/authority/metadata")
    by (vm_compute; reflexivity).
  pose proof (payload_requests_in_sequence fromstring _ _ _ _ _ Hdisc Hid Hd Hm) as H.
  cbv zeta in H.
  replace (http (net (discovered (HttpRaise unreachable) (HttpBody "metadata")))
             ("https://lsid.nmbe.ch/authority/data" +:+ "?lsid=" +:+ nmbe_lsid))
    with (HttpRaise unreachable) in H by (vm_compute; reflexivity).
  exact (proj2 H).
Defined.

(** C7 as stated fails: with a data endpoint that refuses the
    connection and a metadata endpoint that answers, the data request is
    the last request of the whole resolution. *)
Lemma metadata_not_requested_after_data_failure :
  let st := asking (HttpRaise unreachable) (HttpBody "metadata") in
  http (net st) "https://lsid.nmbe.ch/authority/metadata?lsid=urn:lsid:nmbe.ch:spidersp:021946"
  = HttpBody "metadata"
  /\ metadata_url (service_of (resolve_lsid fromstring st).2)
     = Some "https://lsid.nmbe.ch/authority/metadata"
  /\ network_events (resolve_lsid fromstring st).2
     = [DnsQuery "_lsid._tcp.nmbe.ch" "SRV";
        GET "https://lsid.nmbe.ch:443/authority/";
        GET "https://lsid.nmbe.ch:443/authority/?lsid=urn:lsid:nmbe.ch:spidersp:021946";
        payload_get "https://lsid.nmbe.ch/authority/data" nmbe_lsid].
Proof. repeat split; vm_compute; reflexivity. Qed.

(** The whole resolution of [nmbe_lsid] from an empty cache, both payload
    endpoints answering. *)
Lemma resolve_lsid_end_to_end :
  let r := resolve_lsid fromstring (asking (HttpBody "data") (HttpBody "metadata")) in
  r.1 = Ret tt
  /\ authority_url (authority_of r.2) = Some "https://lsid.nmbe.ch:443"
  /\ network_events r.2
     = [DnsQuery "_lsid._tcp.nmbe.ch" "SRV";
        GET "https://lsid.nmbe.ch:443/authority/";
        GET "https://lsid.nmbe.ch:443/authority/?lsid=urn:lsid:nmbe.ch:spidersp:021946";
        payload_get "https://lsid.nmbe.ch/authority/data" nmbe_lsid;
        payload_get "https://lsid.nmbe.ch/authority/metadata" nmbe_lsid]
  /\ drop 11 (trace r.2)
     = [Print (PyStr "Data:");
        payload_get "https://lsid.nmbe.ch/authority/data" nmbe_lsid;
        Print (PyBytes "data");
        Print (PyStr "Metadata:");
        payload_get "https://lsid.nmbe.ch/authority/metadata" nmbe_lsid;
        Print (PyBytes "metadata")]
  /\ dom (fs r.2)
     = {[ cache_path "nmbe.ch" "authority.wsdl"; cache_path "nmbe.ch" "service.wsdl" ]}.
Proof. repeat split; vm_compute; reflexivity. Qed.

End RetrieveExamples.

(** ** The instance is kept for the life of the process *)

Section Kept.
Variable fromstring : bytes -> option Xml.element.
Variable c : nat.

Lemma keeps_ret {A} (a : A) : keeps c (ret a).
Proof. by intros st. Qed.

Lemma keeps_raise {A} cls msg : keeps c (@raise A cls msg).
Proof. by intros st. Qed.

Lemma keeps_get : keeps c get.
Proof. by intros st. Qed.

Lemma keeps_bind {A B} (m : M A) (k : A -> M B) :
  keeps c m -> (forall a, keeps c (k a)) -> keeps c (bind m k).
Proof.
  intros Hm Hk st Hst. unfold bind. specialize (Hm st Hst).
  destruct (m st) as [[a|e|] st']; cbn [snd] in *; [by apply Hk | done | done].
Qed.

Lemma keeps_modify (f : state -> state) :
  (forall st, Cache_instance (f st) = Cache_instance st) -> keeps c (modify f).
Proof. intros Hf st Hst. cbn. by rewrite Hf. Qed.

Lemma keeps_try_except {A} (body : M A) catches handler :
  keeps c body -> (forall e, keeps c (handler e)) -> keeps c (try_except body catches handler).
Proof.
  intros Hb Hh st Hst. unfold try_except. specialize (Hb st Hst).
  destruct (body st) as [[a|e|] st']; cbn [snd] in *; try done.
  destruct (catches (exn_class_of e)); [by apply Hh | done].
Qed.

Lemma keeps_for_each {A} (l : list A) (body : A -> M unit) :
  (forall x, keeps c (body x)) -> keeps c (for_each l body).
Proof.
  intros Hb. induction l as [|x l IH]; cbn [for_each]; [apply keeps_ret|].
  apply keeps_bind; [apply Hb | by intros _].
Qed.

Lemma keeps_Singleton_call : keeps c Singleton_call.
Proof. intros st Hst. by rewrite (Singleton_call_again st c Hst). Qed.

Lemma keeps_pure {A} (r : outcome A) : keeps c (fun st => (r, st)).
Proof. by intros st. Qed.

Create HintDb keeps discriminated.
#[local] Hint Resolve keeps_ret keeps_raise keeps_get keeps_Singleton_call keeps_pure : keeps.

Ltac keeps_step :=
  first
    [ solve [auto 1 with keeps nocore]
    | apply keeps_modify; intros ?; reflexivity
    | apply keeps_for_each; intros ?
    | apply keeps_try_except; [|intros ?]
    | match goal with
      | |- keeps _ (match ?x with _ => _ end) => destruct x
      | |- keeps _ (if ?x then _ else _) => destruct x
      end
    | apply keeps_bind; [|intros ?] ].

Ltac keeps_all := repeat keeps_step.

Lemma keeps_print v : keeps c (print v).
Proof. unfold print, emit. keeps_all. Qed.

Lemma keeps_as_str cls v : keeps c (as_str cls v).
Proof. unfold as_str. keeps_all. Qed.

Lemma keeps_dns_query q r : keeps c (dns_query q r).
Proof. unfold dns_query, emit. keeps_all. Qed.

Lemma keeps_urlopen_read u t : keeps c (urlopen_read u t).
Proof. unfold urlopen_read, emit. keeps_all. Qed.

Lemma keeps_check_cache_file s p n : keeps c (check_cache_file s p n).
Proof. intros st Hst. by rewrite check_cache_file_run. Qed.

Lemma keeps_store_cache_file s p n b : keeps c (store_cache_file s p n b).
Proof. unfold store_cache_file. keeps_all. Qed.

Lemma keeps_update_authority f : keeps c (update_authority f).
Proof. unfold update_authority. keeps_all. Qed.

Lemma keeps_update_service f : keeps c (update_service f).
Proof. unfold update_service. keeps_all. Qed.

Lemma keeps_etree_fromstring b : keeps c (etree_fromstring fromstring b).
Proof. unfold etree_fromstring. keeps_all. Qed.

#[local] Hint Resolve keeps_print keeps_as_str keeps_dns_query keeps_urlopen_read
  keeps_check_cache_file keeps_store_cache_file keeps_update_authority
  keeps_update_service keeps_etree_fromstring : keeps.

Lemma keeps_validate_lsid : keeps c validate_lsid.
Proof. unfold validate_lsid. keeps_all. Qed.

Lemma keeps_set_service_url : keeps c set_service_url.
Proof. unfold set_service_url, loop_body. keeps_all. Qed.

#[local] Hint Resolve keeps_validate_lsid keeps_set_service_url : keeps.

Lemma keeps_get_authority_part v : keeps c (get_authority_part v).
Proof. unfold get_authority_part. keeps_all. Qed.

Lemma keeps_extract_authority_url wsdl : keeps c (extract_authority_url wsdl).
Proof. unfold extract_authority_url. keeps_all. Qed.

Lemma keeps_extract_service_url wsdl : keeps c (extract_service_url wsdl).
Proof. unfold extract_service_url. keeps_all. Qed.

#[local] Hint Resolve keeps_get_authority_part keeps_extract_authority_url
  keeps_extract_service_url : keeps.

Lemma keeps_get_authority_wsdl : keeps c (get_authority_wsdl fromstring).
Proof. unfold get_authority_wsdl, cache_instance, etree_fromstring_val. keeps_all. Qed.

Lemma keeps_get_service_wsdl a n i : keeps c (get_service_wsdl fromstring a n i).
Proof. unfold get_service_wsdl, cache_instance, etree_fromstring_val. keeps_all. Qed.

Lemma keeps_get_data v : keeps c (get_data v).
Proof. unfold get_data. keeps_all. Qed.

Lemma keeps_get_metadata v : keeps c (get_metadata v).
Proof. unfold get_metadata. keeps_all. Qed.

#[local] Hint Resolve keeps_get_authority_wsdl keeps_get_service_wsdl keeps_get_data
  keeps_get_metadata : keeps.

(** Once created, the instance is still the one of [Cache._instance] after
    the whole resolution. *)
Lemma keeps_resolve_lsid : keeps c (resolve_lsid fromstring).
Proof.
  unfold resolve_lsid, discover, retrieve, get_authority_url, get_service_name, get_lsid.
  keeps_all.
Qed.

End Kept.

(** Two reads of the property with a whole resolution in between. *)
Lemma cache_instance_after_resolution {A B : Type} (fromstring : bytes -> option Xml.element)
    (x : A) (y : B) (st : state) :
  (cache_instance y (resolve_lsid fromstring (cache_instance x st).2).2).1
  = (cache_instance x st).1.
Proof.
  unfold cache_instance. rewrite (Singleton_call_instance st). cbn [fst snd].
  destruct (with_instance_frame st) as (_ & _ & _ & _ & _ & _ & _ & _ & Hinst).
  rewrite (Singleton_call_again _ (instance_of st)); [done|].
  by apply keeps_resolve_lsid.
Qed.

(** * Further properties *)

(** ** More on Resolver.validate_lsid and Authority.get_authority_part *)

Section Authority_part.
Import Grammar Sample.

(** X1.  [validate_lsid] returns [True] exactly for the subjects made of
    well-formed fields, followed by nothing or by one line feed; on every
    other subject it raises [ValidationError] and leaves the state alone. *)
Theorem validate_lsid_accepts_iff (st : state) (s : string) :
  lsid st = Some s ->
  ((validate_lsid st).1 = Ret true
   <-> exists fs nl, PyStr.chars s = join fs ++ nl /\ (nl = [] \/ nl = ["010"%char])
                     /\ well_formed (segment Pattern.tail_class) fs = true)
  /\ ((validate_lsid st).1 <> Ret true -> validate_lsid st = (Raise not_well_formed, st)).
Proof.
  intros Hs. rewrite (validate_lsid_run st s Hs), <- LsidFacts.re_match_fields.
  destruct (Pattern.re_match Pattern.lsid_pattern s); cbn [fst].
  - split; [done | intros H; by destruct H].
  - split; [split; discriminate | done].
Qed.

Lemma validate_lsid_accepts_iff_witness :
  (validate_lsid (holding ("urn:lsid:a:b:c" +:+ String "010" ""))).1 = Ret true.
Proof.
  apply (proj1 (validate_lsid_accepts_iff
                  (holding ("urn:lsid:a:b:c" +:+ String "010" ""))
                  ("urn:lsid:a:b:c" +:+ String "010" "") eq_refl)).
  exists [PyStr.chars "urn"; PyStr.chars "lsid"; PyStr.chars "a"; PyStr.chars "b"; PyStr.chars "c"],
    ["010"%char].
  split; [vm_compute; reflexivity | split; [by right | vm_compute; reflexivity]].
Defined.

Lemma split_chars_third u l a r rest nl :
  no_colon u = true -> no_colon l = true -> no_colon a = true ->
  PyStr.split_chars ":" (join (u :: l :: a :: r :: rest) ++ nl) !! 2%nat = Some a.
Proof.
  intros Hu Hl Ha.
  change (join (u :: l :: a :: r :: rest))
    with (u ++ ":"%char :: l ++ ":"%char :: a ++ ":"%char :: join (r :: rest)).
  repeat (rewrite <- app_assoc; cbn [app]).
  by rewrite !LsidFacts.split_chars_field.
Qed.

Lemma chars_of_chars l : PyStr.chars (PyStr.of_chars l) = l.
Proof. apply list_ascii_of_string_of_list_ascii. Qed.

(** The third field of an accepted subject is its authority segment. *)
Lemma accepted_third_field s :
  Pattern.re_match Pattern.lsid_pattern s = true ->
  exists part,
    PyStr.split ":" s !! 2%nat = Some part
    /\ segment Pattern.tail_class (PyStr.chars part) = true.
Proof.
  intros (fs & nl & Hs & Hnl & Hwf)%LsidFacts.re_match_fields.
  assert (Hnc : forallb no_colon fs = true)
    by (eapply LsidFacts.well_formed_no_colon; [apply LsidFacts.class_no_colon | done]).
  unfold PyStr.split. rewrite Hs, list_lookup_fmap.
  unfold well_formed in Hwf.
  destruct fs as [|u [|l [|a [|n [|o [|r [|]]]]]]]; try done;
    cbn [forallb] in Hnc; rewrite !andb_true_iff in Hnc, Hwf; destruct_and!;
    rewrite split_chars_third by done;
    (eexists; split; [reflexivity|]); by rewrite chars_of_chars.
Qed.

(** X2.  After a successful validation the subject has a third field,
    which is a well-formed segment: [get_authority_part] stores it as
    [url_part], prints it and goes on to the SRV lookup, without
    [IndexError]. *)
Theorem get_authority_part_of_valid (st : state) (s : string) :
  Pattern.re_match Pattern.lsid_pattern s = true ->
  exists part,
    PyStr.split ":" s !! 2%nat = Some part
    /\ segment Pattern.tail_class (PyStr.chars part) = true
    /\ get_authority_part (Some s) st
       = set_service_url
           (said ("Authority part of LSID: " +:+ part)
              (set_authority (set_url_part (Some part) (authority_of st)) st)).
Proof.
  intros Hm. destruct (accepted_third_field s Hm) as (part & Hpart & Hseg).
  exists part. split; [done|]. split; [done|].
  unfold get_authority_part. step reflexivity. cbv zeta. rewrite Hpart.
  step reflexivity. step (apply print_run). reflexivity.
Qed.

Lemma get_authority_part_of_valid_witness :
  exists part,
    PyStr.split ":" nmbe_lsid !! 2%nat = Some part
    /\ segment Pattern.tail_class (PyStr.chars part) = true
    /\ get_authority_part (Some nmbe_lsid) (holding nmbe_lsid)
       = set_service_url
           (said ("Authority part of LSID: " +:+ part)
              (set_authority (set_url_part (Some part) (authority_of (holding nmbe_lsid)))
                 (holding nmbe_lsid))).
Proof. apply (get_authority_part_of_valid (holding nmbe_lsid) nmbe_lsid). reflexivity. Defined.

(** X3.  A subject with fewer than three fields raises [IndexError], and
    no subject at all raises [AttributeError]; neither changes the state
    nor asks the name server. *)
Theorem get_authority_part_short (st : state) (s : string) :
  length (PyStr.split ":" s) < 3 ->
  get_authority_part (Some s) st = (Raise (Exn IndexError "list index out of range"), st)
  /\ get_authority_part None st = (Raise (Exn AttributeError "NoneType"), st).
Proof.
  intros Hlen. split; [|done].
  unfold get_authority_part. step reflexivity. cbv zeta.
  by rewrite (lookup_ge_None_2 (PyStr.split ":" s) 2) by lia.
Qed.

Lemma get_authority_part_short_witness :
  get_authority_part (Some "urn:lsid") (holding "urn:lsid")
  = (Raise (Exn IndexError "list index out of range"), holding "urn:lsid").
Proof.
  apply (proj1 (get_authority_part_short (holding "urn:lsid") "urn:lsid" ltac:(vm_compute; lia))).
Defined.

End Authority_part.

(** ** More on class Cache *)

Section CacheMore.
Import Sample.

Lemma append_cons a s t : String a s +:+ t = String a (s +:+ t).
Proof. reflexivity. Qed.

Lemma append_nil t : "" +:+ t = t.
Proof. reflexivity. Qed.

Lemma append_slash_inj p p' n n' :
  no_slash p = true -> no_slash p' = true ->
  p +:+ String "/" n = p' +:+ String "/" n' -> p = p' /\ n = n'.
Proof.
  revert p'. induction p as [|a p IH]; intros [|a' p']; cbn [no_slash];
    rewrite ?append_cons, ?append_nil; intros Hp Hp' E.
  - by injection E as ->.
  - injection E as <- _. apply andb_true_iff in Hp' as [Ha _]. by vm_compute in Ha.
  - injection E as -> _. apply andb_true_iff in Hp as [Ha _]. by vm_compute in Ha.
  - injection E as -> E. apply andb_true_iff in Hp as [_ Hp].
    apply andb_true_iff in Hp' as [_ Hp'].
    destruct (IH p' Hp Hp' E) as [-> ->]. done.
Qed.

Lemma cache_path_inj p p' n n' :
  no_slash p = true -> no_slash p' = true ->
  cache_path p n = cache_path p' n' -> p = p' /\ n = n'.
Proof.
  intros Hp Hp'. unfold cache_path, PATH.
  rewrite !append_cons, !append_nil.
  intros E. repeat injection E as E. by apply append_slash_inj.
Qed.

(** X4.  Entries do not interfere: for plain partitions and names in a
    tidy cache directory, a store under one (partition, name) leaves the
    lookup of every other pair as it was.  Plain names are what makes two
    different pairs two different files. *)
Theorem store_leaves_other_entries (st : state) (c c' : nat)
    (p n p' n' : string) (b : bytes) :
  plain_name p = true -> plain_name n = true ->
  plain_name p' = true -> plain_name n' = true ->
  tidy st -> clock_ok st ->
  (p, n) <> (p', n') ->
  (check_cache_file c' p' n' (store_cache_file c p n b st).2).1
  = (check_cache_file c' p' n' st).1.
Proof.
  intros Hp _ Hp' _ _ _ Hne. rewrite store_cache_file_run, !check_cache_file_run.
  cbn [fst snd fs set_fs utc_clock utc_offset].
  rewrite lookup_insert_ne; [done|].
  intros E. apply Hne.
  by destruct (cache_path_inj p p' n n' (plain_name_no_slash p Hp)
                 (plain_name_no_slash p' Hp') E) as [-> ->].
Qed.

Lemma store_leaves_other_entries_witness :
  let st := (store_cache_file 0 "nmbe.ch" "authority.wsdl" authority_bytes
               (process ∅ 1000 (network_of HttpHang HttpHang))).2 in
  (check_cache_file 0 "nmbe.ch" "authority.wsdl"
     (store_cache_file 0 "nmbe.ch" "service.wsdl" service_bytes st).2).1
  = Ret (PyBytes authority_bytes).
Proof.
  cbv zeta.
  assert (Hp : plain_name "nmbe.ch" = true) by (vm_compute; reflexivity).
  assert (Ha : plain_name "authority.wsdl" = true) by (vm_compute; reflexivity).
  assert (Hs : plain_name "service.wsdl" = true) by (vm_compute; reflexivity).
  assert (Hc : clock_ok (process ∅ 1000 (network_of HttpHang HttpHang)))
    by (unfold clock_ok, in_era, timestamp_max; cbn; lia).
  assert (Ht : tidy (store_cache_file 0 "nmbe.ch" "authority.wsdl" authority_bytes
                       (process ∅ 1000 (network_of HttpHang HttpHang))).2)
    by (apply tidy_store; [exact Hp | exact Ha | exact Hc | apply tidy_empty; reflexivity]).
  rewrite (store_leaves_other_entries _ 0 0 "nmbe.ch" "service.wsdl" "nmbe.ch" "authority.wsdl"
             service_bytes Hp Hs Hp Ha Ht Hc ltac:(discriminate)).
  vm_compute. reflexivity.
Defined.

(** With a slash in a name two pairs can be one key: the key is the path. *)
Lemma cache_keys_collide :
  let st := process ∅ 1000 (network_of HttpHang HttpHang) in
  (check_cache_file 0 "a" "b/c" (store_cache_file 0 "a/b" "c" "x" st).2).1
  = Ret (PyBytes "x").
Proof. vm_compute. reflexivity. Qed.



(** X6.  Time does not bring an entry back: a lookup that returned
    [False] returns [False] at every later time, as long as nothing is
    stored. *)
Theorem refused_stays_refused (st : state) (c c' : nat) (p n : string) (d : Z) :
  (0 <= d)%Z ->
  (check_cache_file c p n st).1 = Ret (PyBool false) ->
  (check_cache_file c' p n (advance d st)).1 = Ret (PyBool false).
Proof.
  intros Hd. rewrite !check_cache_file_run. cbn [fst fs advance set_clock utc_clock utc_offset].
  destruct (fs st !! cache_path p n) as [f|]; [|done].
  destruct (Z.leb_spec (utc_clock st - retention) (mtime f + utc_offset st)); [done|].
  intros _. destruct (Z.leb_spec (utc_clock st + d - retention) (mtime f + utc_offset st));
    [lia|done].
Qed.

Lemma refused_stays_refused_witness :
  let st := advance 172800000001
              (store_cache_file 0 "nmbe.ch" "authority.wsdl" authority_bytes
                 (process ∅ 1000 (network_of HttpHang HttpHang))).2 in
  (check_cache_file 0 "nmbe.ch" "authority.wsdl" (advance 5 st)).1 = Ret (PyBool false).
Proof.
  cbv zeta. apply (refused_stays_refused _ 0 0 "nmbe.ch" "authority.wsdl" 5).
  - lia.
  - vm_compute. reflexivity.
Defined.

Lemma get_cache_expiration_timestamp_run (st : state) (c : nat) (d : Z) :
  get_cache_expiration c (timestamp st (utcnow st - d)) st
  = (Ret (d <=? retention)%Z, st).
Proof.
  unfold get_cache_expiration, bind, get, timestamp, fromtimestamp, utcnow, retention.
  replace (utc_clock st - timedelta_seconds CACHE_TIME <=? utc_clock st - d - utc_offset st + utc_offset st)%Z
    with (d <=? timedelta_seconds CACHE_TIME)%Z.
  - by destruct (d <=? timedelta_seconds CACHE_TIME)%Z.
  - apply eq_true_iff_eq. rewrite !Z.leb_le. lia.
Qed.

(** X7.  On the time stamps the tests build, [utcnow()] minus [d]
    turned into a time stamp by [timestamp()], the answer of
    [get_cache_expiration] called [e] microseconds later is [True]
    exactly when [d + e] is at most the window.  The host has one fixed
    offset of local time, whatever it is: there the round trip through
    [timestamp] and [fromtimestamp] cancels it.  The instants are
    between 1970 and 2106 in UTC and in local time. *)
Theorem get_cache_expiration_of_timestamp (st : state) (c : nat) (d e : Z) :
  clock_ok st ->
  in_era st (timestamp st (utcnow st - d)) ->
  clock_ok (advance e st) ->
  get_cache_expiration c (timestamp st (utcnow st - d)) (advance e st)
  = (Ret (d + e <=? retention)%Z, advance e st).
Proof.
  intros _ _ _.
  unfold get_cache_expiration, bind, get, timestamp, fromtimestamp, utcnow, retention.
  cbn [advance set_clock utc_clock utc_offset].
  replace (utc_clock st + e - timedelta_seconds CACHE_TIME
           <=? utc_clock st - d - utc_offset st + utc_offset st)%Z
    with (d + e <=? timedelta_seconds CACHE_TIME)%Z.
  - by destruct (d + e <=? timedelta_seconds CACHE_TIME)%Z.
  - apply eq_true_iff_eq. rewrite !Z.leb_le. lia.
Qed.

Lemma get_cache_expiration_of_timestamp_witness :
  let st := State None new_authority new_service None 0 ∅
              (1700000000 * 1000000) (7200 * 1000000) (network_of HttpHang HttpHang) [] in
  (get_cache_expiration 0 (timestamp st (utcnow st - (CACHE_TIME + 10) * 1000000))
     (advance 250 st)).1 = Ret false.
Proof.
  cbv zeta.
  rewrite (get_cache_expiration_of_timestamp
             (State None new_authority new_service None 0 ∅
                (1700000000 * 1000000) (7200 * 1000000) (network_of HttpHang HttpHang) [])
             0 ((CACHE_TIME + 10) * 1000000) 250).
  - reflexivity.
  - unfold clock_ok, in_era, timestamp_max. cbn. lia.
  - unfold in_era, timestamp, utcnow, timestamp_max, CACHE_TIME. cbn. lia.
  - unfold clock_ok, in_era, timestamp_max. cbn. lia.
Defined.

(** The two tests of the source: now, and ten seconds past the window. *)
Lemma get_cache_expiration_tests (st : state) (c : nat) :
  (get_cache_expiration c (timestamp st (utcnow st)) st).1 = Ret true
  /\ (get_cache_expiration c
        (timestamp st (utcnow st - timedelta_seconds (CACHE_TIME + 10))) st).1 = Ret false.
Proof.
  split.
  - pose proof (get_cache_expiration_timestamp_run st c 0) as H.
    rewrite Z.sub_0_r in H. by rewrite H.
  - by rewrite (get_cache_expiration_timestamp_run st c (timedelta_seconds (CACHE_TIME + 10))).
Qed.

End CacheMore.

(** ** More on the XPath predicates and the extractions *)

Section ExtractMore.
Import Sample Regex RegexFacts.

Lemma matches_star_any s : matches (Star any) s.
Proof. apply LsidFacts.matches_star_cls. by induction s. Qed.

Lemma matches_lit l s : matches (lit l) s <-> s = l.
Proof.
  revert s. induction l as [|c l IH]; intros s; cbn [lit].
  - split; [intros H; by inversion H | intros ->; constructor].
  - rewrite LsidFacts.matches_cat. split.
    + intros (s1 & s2 & -> & (d & -> & Hd%Ascii.eqb_eq)%LsidFacts.matches_cls & H2%IH).
      by subst.
    + intros ->. exists [c], l. split; [done|]. split; [|by apply IH].
      apply LsidFacts.matches_cls. exists c. split; [done | apply Ascii.eqb_refl].
Qed.

(** X8.  The predicate [re:test(@binding, 'suffix$')] of the three
    queries holds exactly when the binding attribute, or the empty string
    in its place when the element has none, ends with the suffix or with
    the suffix and one line feed. *)
Theorem re_test_suffix_iff (suffix : string) (e : Xml.element) :
  Xml.re_test_suffix suffix e = true
  <-> exists pre nl,
        PyStr.chars (default "" (Xml.get e "binding")) = pre ++ PyStr.chars suffix ++ nl
        /\ (nl = [] \/ nl = ["010"%char]).
Proof.
  unfold Xml.re_test_suffix. rewrite fullmatch_matches, LsidFacts.matches_cat. split.
  - intros (pre & rest & -> & _ & (l & nl & -> & ->%matches_lit & Hnl%LsidFacts.matches_dollar)%LsidFacts.matches_cat).
    by exists pre, nl.
  - intros (pre & nl & -> & Hnl). exists pre, (PyStr.chars suffix ++ nl).
    split; [done|]. split; [apply matches_star_any|].
    apply LsidFacts.matches_cat. exists (PyStr.chars suffix), nl.
    split; [done|]. split; [by apply matches_lit | by apply LsidFacts.matches_dollar].
Qed.

(** The authority query takes a binding that is the bare name; the data
    and metadata queries want a colon before it.  An element without the
    attribute matches none. *)
Lemma re_test_suffix_examples :
  Xml.re_test_suffix "LSIDAuthorityHTTPBinding" (wsdl_port "LSIDAuthorityHTTPBinding" []) = true
  /\ Xml.re_test_suffix ":LSIDDataHTTPBinding" (wsdl_port "LSIDDataHTTPBinding" []) = false
  /\ Xml.re_test_suffix ":LSIDMetadataHTTPBinding" (wsdl_port "LSIDMetadataHTTPBinding" []) = false
  /\ Xml.re_test_suffix "LSIDAuthorityHTTPBinding" bare_address = false.
Proof. repeat split; vm_compute; reflexivity. Qed.

(** X9.  When the one address found has no location attribute,
    [extract_authority_url] has already set [authority_url] to [None] when
    the console line raises [TypeError]; [NoValueError] is not reached. *)
Theorem extract_authority_url_without_location (wsdl node : Xml.element) (st : state) :
  Xml.xpath_authority wsdl = [node] ->
  Xml.get node "location" = None ->
  extract_authority_url wsdl st
  = (Raise none_in_concatenation,
     set_authority (set_authority_url None (authority_of st)) st).
Proof.
  intros Hx Hl. by rewrite (extract_authority_url_single wsdl node st Hx), Hl.
Qed.

Lemma extract_authority_url_without_location_witness :
  let st := bound "https://lsid.nmbe.ch:443" (holding nmbe_lsid) in
  authority_url (authority_of st) = Some "https://lsid.nmbe.ch:443"
  /\ authority_url (authority_of (extract_authority_url address_without_location st).2) = None.
Proof.
  cbv zeta. split; [reflexivity|].
  rewrite (extract_authority_url_without_location address_without_location bare_address _
             eq_refl eq_refl).
  reflexivity.
Defined.

(** X10.  On a document in which every address found alone has a
    location, [extract_service_url] returns, makes no network call and
    leaves the authority alone; each endpoint is the location of its own
    query when that finds exactly one address, and keeps the value it had
    otherwise. *)
Theorem service_endpoints_extracted (wsdl : Xml.element) (st : state) :
  (forall node, Xml.xpath_data wsdl = [node] -> is_Some (Xml.get node "location")) ->
  (forall node, Xml.xpath_metadata wsdl = [node] -> is_Some (Xml.get node "location")) ->
  let r := extract_service_url wsdl st in
  r.1 = Ret tt
  /\ data_url (service_of r.2)
     = match Xml.xpath_data wsdl with
       | [node] => Xml.get node "location"
       | _ => data_url (service_of st)
       end
  /\ metadata_url (service_of r.2)
     = match Xml.xpath_metadata wsdl with
       | [node] => Xml.get node "location"
       | _ => metadata_url (service_of st)
       end
  /\ network_events r.2 = network_events st
  /\ authority_of r.2 = authority_of st.
Proof.
  intros Hd Hm. cbv zeta.
  destruct (extract_service_url_independent wsdl st Hd Hm) as (H1 & H2 & H3).
  split; [done|]. split; [done|]. split; [done|].
  split; [apply extract_service_url_quiet|].
  rewrite extract_service_url_steps. unfold data_step, metadata_step.
  destruct (Xml.xpath_data wsdl) as [|d [|]]; cbn;
    try (destruct (Xml.xpath_metadata wsdl) as [|m [|]]; cbn; try done;
         destruct (Hm m eq_refl) as [v ->]; done).
  destruct (Hd d eq_refl) as [w ->]. cbn.
  destruct (Xml.xpath_metadata wsdl) as [|m [|]]; cbn; try done.
  destruct (Hm m eq_refl) as [v ->]. done.
Qed.

Lemma service_endpoints_extracted_witness :
  let r := extract_service_url service_doc (holding nmbe_lsid) in
  r.1 = Ret tt
  /\ data_url (service_of r.2) = Some "https://lsid.nmbe.ch/authority/data"
  /\ metadata_url (service_of r.2) = Some "https://lsid.nmbe.ch/authority/metadata".
Proof.
  cbv zeta.
  assert (Hd : forall node, Xml.xpath_data service_doc = [node] -> is_Some (Xml.get node "location")).
  { intros node H. vm_compute in H. injection H as <-. by eexists. }
  assert (Hm : forall node, Xml.xpath_metadata service_doc = [node] -> is_Some (Xml.get node "location")).
  { intros node H. vm_compute in H. injection H as <-. by eexists. }
  destruct (service_endpoints_extracted service_doc (holding nmbe_lsid) Hd Hm)
    as (H1 & H2 & H3 & _).
  split; [exact H1|]. split; [rewrite H2 | rewrite H3]; vm_compute; reflexivity.
Defined.

End ExtractMore.

(** ** More on class Authority: the service location *)

Section LocationMore.
Import Sample.
Variable fromstring : bytes -> option Xml.element.

Lemma str_of_N_inj n m : PyStr.str_of_N n = PyStr.str_of_N m -> n = m.
Proof.
  assert (Hnil : forall k, N.to_uint k <> Decimal.Nil).
  { intros [|q]; [done | apply DecimalPos.Unsigned.to_uint_nonnil]. }
  unfold PyStr.str_of_N. intros H.
  apply (f_equal NilZero.uint_of_string) in H.
  rewrite !NilZero.usu in H by apply Hnil.
  injection H as H. apply (f_equal N.of_uint) in H.
  by rewrite !DecimalN.Unsigned.of_to in H.
Qed.

Lemma str_of_N_443 p : String.eqb (PyStr.str_of_N p) "443" = (p =? 443)%N.
Proof.
  apply eq_true_iff_eq. rewrite String.eqb_eq, N.eqb_eq. split.
  - intros H. by apply str_of_N_inj.
  - by intros ->.
Qed.

(** X11.  The scheme of the authority request follows the number of the
    port: with the port string of an SRV record, a fetch that misses the
    cache requests [https://host:443/authority/] when the port is 443 and
    [http://host:port/authority/] for every other port. *)
Theorem authority_request_scheme (st : state) (part host : string) (p : N) (v : pyval) :
  url_part (authority_of st) = Some part ->
  service_url (authority_of st) = Some host ->
  service_port (authority_of st) = Some (PyStr.str_of_N p) ->
  (check_cache_file 0 part "authority.wsdl" st).1 = Ret v ->
  truthy v = false ->
  network_events (get_authority_wsdl fromstring st).2
  = network_events st
    ++ [GET ((if (p =? 443)%N then "https://" else "http://")
               +:+ host +:+ ":" +:+ PyStr.str_of_N p +:+ "/authority/")].
Proof.
  intros Hpart Hhost Hport Hcheck Hv.
  destruct (authority_miss fromstring st part host (PyStr.str_of_N p) Hpart Hhost Hport v Hcheck Hv)
    as [Hev _].
  rewrite Hev. unfold authority_source. by rewrite str_of_N_443.
Qed.

End LocationMore.

Section LocationExamples.
Import Sample.

Lemma authority_request_scheme_witness :
  let st := set_authority (MkAuthority (Some "example.org") (Some "second.example.org")
                             (Some (PyStr.str_of_N 8080)) None)
              (process ∅ 1000 two_records) in
  network_events (get_authority_wsdl fromstring st).2
  = [GET "http://second.example.org:8080/authority/"].
Proof.
  cbv zeta.
  apply (authority_request_scheme fromstring
           (set_authority (MkAuthority (Some "example.org") (Some "second.example.org")
                             (Some (PyStr.str_of_N 8080)) None)
              (process ∅ 1000 two_records))
           "example.org" "second.example.org" 8080 (PyBool false));
    vm_compute; reflexivity.
Defined.

Lemma set_service_url_dns_raise (st : state) (part : string) (e : exn) :
  url_part (authority_of st) = Some part ->
  dns_srv (net st) ("_lsid._tcp." +:+ part) = DnsRaise e ->
  set_service_url st
  = (Raise e, set_trace (trace st ++ [DnsQuery ("_lsid._tcp." +:+ part) "SRV"]) st).
Proof.
  intros Hpart Hdns. unfold set_service_url.
  step reflexivity. rewrite Hpart. step reflexivity.
  step (rewrite dns_query_run, Hdns; reflexivity). reflexivity.
Qed.

(** X12.  [set_service_url] without an authority part raises
    [TypeError] before any query; when the name server raises, the same
    exception comes out after the one query.  In both cases the host and
    the port are as they were. *)
Theorem set_service_url_failures (st : state) :
  (url_part (authority_of st) = None ->
     set_service_url st = (Raise none_in_concatenation, st))
  /\ (forall part e,
        url_part (authority_of st) = Some part ->
        dns_srv (net st) ("_lsid._tcp." +:+ part) = DnsRaise e ->
        set_service_url st
        = (Raise e, set_trace (trace st ++ [DnsQuery ("_lsid._tcp." +:+ part) "SRV"]) st)).
Proof.
  split.
  - intros H. unfold set_service_url. step reflexivity. by rewrite H.
  - intros part e Hpart Hdns. by apply set_service_url_dns_raise.
Qed.

Lemma set_service_url_failures_witness :
  let st := set_authority (set_url_part (Some "example.com") new_authority)
              (holding "urn:lsid:example.com:a:b") in
  (set_service_url st).1 = Raise (Exn DNSException "The DNS query name does not exist")
  /\ set_service_url (holding nmbe_lsid) = (Raise none_in_concatenation, holding nmbe_lsid).
Proof.
  cbv zeta. split.
  - rewrite (proj2 (set_service_url_failures
                      (set_authority (set_url_part (Some "example.com") new_authority)
                         (holding "urn:lsid:example.com:a:b")))
               "example.com"
               (Exn DNSException "The DNS query name does not exist") eq_refl eq_refl).
    reflexivity.
  - exact (proj1 (set_service_url_failures (holding nmbe_lsid)) eq_refl).
Defined.

End LocationExamples.

(** ** What the resolution leaves alone *)

Section Steady.
Variable fromstring : bytes -> option Xml.element.

Lemma same_world_refl st : same_world st st.
Proof. by repeat split. Qed.

Lemma same_world_trans st1 st2 st3 :
  same_world st1 st2 -> same_world st2 st3 -> same_world st1 st3.
Proof.
  intros (H1 & H2 & H3 & H4) (K1 & K2 & K3 & K4).
  repeat split; congruence.
Qed.

Lemma steady_ret {A} (a : A) : steady (ret a).
Proof. intros st. apply same_world_refl. Qed.

Lemma steady_raise {A} cls msg : steady (@raise A cls msg).
Proof. intros st. apply same_world_refl. Qed.

Lemma steady_get : steady get.
Proof. intros st. apply same_world_refl. Qed.

Lemma steady_pure {A} (r : outcome A) : steady (fun st => (r, st)).
Proof. intros st. apply same_world_refl. Qed.

Lemma steady_modify (f : state -> state) :
  (forall st, same_world st (f st)) -> steady (modify f).
Proof. intros Hf st. apply Hf. Qed.

Lemma steady_bind {A B} (m : M A) (k : A -> M B) :
  steady m -> (forall a, steady (k a)) -> steady (bind m k).
Proof.
  intros Hm Hk st. unfold bind. specialize (Hm st).
  destruct (m st) as [[a|e|] st']; cbn [snd] in *; try done.
  eapply same_world_trans; [exact Hm | apply Hk].
Qed.

Lemma steady_try_except {A} (body : M A) catches handler :
  steady body -> (forall e, steady (handler e)) -> steady (try_except body catches handler).
Proof.
  intros Hb Hh st. unfold try_except. specialize (Hb st).
  destruct (body st) as [[a|e|] st']; cbn [snd] in *; try done.
  destruct (catches (exn_class_of e)); [|done].
  eapply same_world_trans; [exact Hb | apply Hh].
Qed.

Lemma steady_for_each {A} (l : list A) (body : A -> M unit) :
  (forall x, steady (body x)) -> steady (for_each l body).
Proof.
  intros Hb. induction l as [|x l IH]; cbn [for_each]; [apply steady_ret|].
  apply steady_bind; [apply Hb | by intros _].
Qed.

Create HintDb steady discriminated.
#[local] Hint Resolve steady_ret steady_raise steady_get steady_pure : steady.

Ltac steady_step :=
  first
    [ solve [auto 1 with steady nocore]
    | apply steady_modify; intros ?; by repeat split
    | apply steady_for_each; intros ?
    | apply steady_try_except; [|intros ?]
    | match goal with
      | |- steady (match ?x with _ => _ end) => destruct x
      | |- steady (if ?x then _ else _) => destruct x
      end
    | apply steady_bind; [|intros ?] ].

Ltac steady_all := repeat steady_step.

Lemma steady_emit e : steady (emit e).
Proof. unfold emit. steady_all. Qed.

Lemma steady_print v : steady (print v).
Proof. unfold print, emit. steady_all. Qed.

Lemma steady_as_str cls v : steady (as_str cls v).
Proof. unfold as_str. steady_all. Qed.

Lemma steady_Singleton_call : steady Singleton_call.
Proof. unfold Singleton_call. steady_all. Qed.

#[local] Hint Resolve steady_emit steady_print steady_as_str steady_Singleton_call : steady.

Lemma steady_dns_query q r : steady (dns_query q r).
Proof. unfold dns_query. steady_all. Qed.

Lemma steady_urlopen_read u t : steady (urlopen_read u t).
Proof. unfold urlopen_read. steady_all. Qed.

Lemma steady_check_cache_file s p n : steady (check_cache_file s p n).
Proof. intros st. rewrite check_cache_file_run. apply same_world_refl. Qed.

Lemma steady_store_cache_file s p n b : steady (store_cache_file s p n b).
Proof. unfold store_cache_file. steady_all. Qed.

Lemma steady_update_authority f : steady (update_authority f).
Proof. unfold update_authority. steady_all. Qed.

Lemma steady_update_service f : steady (update_service f).
Proof. unfold update_service. steady_all. Qed.

Lemma steady_etree_fromstring b : steady (etree_fromstring fromstring b).
Proof. unfold etree_fromstring. steady_all. Qed.

#[local] Hint Resolve steady_dns_query steady_urlopen_read steady_check_cache_file
  steady_store_cache_file steady_update_authority steady_update_service
  steady_etree_fromstring : steady.

Lemma steady_validate_lsid : steady validate_lsid.
Proof. unfold validate_lsid. steady_all. Qed.

Lemma steady_set_service_url : steady set_service_url.
Proof. unfold set_service_url, loop_body. steady_all. Qed.

#[local] Hint Resolve steady_validate_lsid steady_set_service_url : steady.

Lemma steady_get_authority_part v : steady (get_authority_part v).
Proof. unfold get_authority_part. steady_all. Qed.

Lemma steady_extract_authority_url wsdl : steady (extract_authority_url wsdl).
Proof. unfold extract_authority_url. steady_all. Qed.

Lemma steady_extract_service_url wsdl : steady (extract_service_url wsdl).
Proof. unfold extract_service_url. steady_all. Qed.

#[local] Hint Resolve steady_get_authority_part steady_extract_authority_url
  steady_extract_service_url : steady.

Lemma steady_get_authority_wsdl : steady (get_authority_wsdl fromstring).
Proof. unfold get_authority_wsdl, cache_instance, etree_fromstring_val. steady_all. Qed.

Lemma steady_get_service_wsdl a n i : steady (get_service_wsdl fromstring a n i).
Proof. unfold get_service_wsdl, cache_instance, etree_fromstring_val. steady_all. Qed.

Lemma steady_get_data v : steady (get_data v).
Proof. unfold get_data. steady_all. Qed.

Lemma steady_get_metadata v : steady (get_metadata v).
Proof. unfold get_metadata. steady_all. Qed.

#[local] Hint Resolve steady_get_authority_wsdl steady_get_service_wsdl steady_get_data
  steady_get_metadata : steady.

Lemma steady_discover : steady (discover fromstring).
Proof. unfold discover, get_authority_url, get_service_name, get_lsid. steady_all. Qed.

Lemma steady_retrieve : steady retrieve.
Proof. unfold retrieve. steady_all. Qed.

#[local] Hint Resolve steady_discover steady_retrieve : steady.

Lemma steady_resolve_lsid : steady (resolve_lsid fromstring).
Proof. unfold resolve_lsid. steady_all. Qed.

(** X13.  Whatever happens in it, [resolve_lsid] leaves the stored LSID
    as it was, on success and on failure; it does not touch the clock or
    the network either. *)
Theorem resolve_lsid_steady (st : state) :
  let st' := (resolve_lsid fromstring st).2 in
  lsid st' = lsid st /\ net st' = net st
  /\ utc_clock st' = utc_clock st /\ utc_offset st' = utc_offset st.
Proof. apply steady_resolve_lsid. Qed.

End Steady.

(** ** Where the resolution can block *)

Section Calm.
Variable fromstring : bytes -> option Xml.element.

Lemma calm_ret {A} (a : A) : calm (ret a).
Proof. by intros st H. Qed.

Lemma calm_raise {A} cls msg : calm (@raise A cls msg).
Proof. by intros st H. Qed.

Lemma calm_get : calm get.
Proof. by intros st H. Qed.

Lemma calm_ret_pair {A} (a : A) : calm (fun st => (Ret a, st)).
Proof. by intros st H. Qed.

Lemma calm_raise_pair {A} e : calm (fun st => (@Raise A e, st)).
Proof. by intros st H. Qed.

Lemma calm_modify (f : state -> state) :
  (forall st, net (f st) = net st) -> calm (modify f).
Proof. intros Hf st H. split; [done|]. intros url. cbn. rewrite Hf. apply H. Qed.

Lemma calm_bind {A B} (m : M A) (k : A -> M B) :
  calm m -> (forall a, calm (k a)) -> calm (bind m k).
Proof.
  intros Hm Hk st H. unfold bind. destruct (Hm st H) as [Hb Hn].
  destruct (m st) as [[a|e|] st']; cbn [fst snd] in *; [by apply Hk | done | done].
Qed.

Lemma calm_try_except {A} (body : M A) catches handler :
  calm body -> (forall e, calm (handler e)) -> calm (try_except body catches handler).
Proof.
  intros Hb Hh st H. unfold try_except. destruct (Hb st H) as [Hnb Hn].
  destruct (body st) as [[a|e|] st']; cbn [fst snd] in *; try done.
  destruct (catches (exn_class_of e)); [by apply Hh | done].
Qed.

Lemma calm_for_each {A} (l : list A) (body : A -> M unit) :
  (forall x, calm (body x)) -> calm (for_each l body).
Proof.
  intros Hb. induction l as [|x l IH]; cbn [for_each]; [apply calm_ret|].
  apply calm_bind; [apply Hb | by intros _].
Qed.

Create HintDb calm discriminated.
#[local] Hint Resolve calm_ret calm_raise calm_get calm_ret_pair calm_raise_pair : calm.

Ltac calm_step :=
  first
    [ solve [auto 1 with calm nocore]
    | apply calm_modify; intros ?; reflexivity
    | apply calm_for_each; intros ?
    | apply calm_try_except; [|intros ?]
    | match goal with
      | |- calm (match ?x with _ => _ end) => destruct x
      | |- calm (if ?x then _ else _) => destruct x
      end
    | apply calm_bind; [|intros ?] ].

Ltac calm_all := repeat calm_step.

Lemma calm_emit e : calm (emit e).
Proof. unfold emit. calm_all. Qed.

Lemma calm_print v : calm (print v).
Proof. unfold print, emit. calm_all. Qed.

Lemma calm_as_str cls v : calm (as_str cls v).
Proof. unfold as_str. calm_all. Qed.

Lemma calm_Singleton_call : calm Singleton_call.
Proof. unfold Singleton_call. calm_all. Qed.

Lemma calm_dns_query q r : calm (dns_query q r).
Proof. unfold dns_query, emit. calm_all. Qed.

(** The one place where a call can block: a request without a timeout to
    an endpoint that hangs. *)
Lemma calm_urlopen_read u t : calm (urlopen_read u t).
Proof.
  intros st H. rewrite urlopen_read_run. cbv zeta.
  assert (Hn : no_hang (set_trace (trace st ++ [HttpGet u t]) st)) by exact H.
  specialize (H u). destruct (http (net st) u); try done.
Qed.

Lemma calm_check_cache_file s p n : calm (check_cache_file s p n).
Proof. intros st H. by rewrite check_cache_file_run. Qed.

Lemma calm_store_cache_file s p n b : calm (store_cache_file s p n b).
Proof. unfold store_cache_file. calm_all. Qed.

Lemma calm_update_authority f : calm (update_authority f).
Proof. unfold update_authority. calm_all. Qed.

Lemma calm_update_service f : calm (update_service f).
Proof. unfold update_service. calm_all. Qed.

Lemma calm_etree_fromstring b : calm (etree_fromstring fromstring b).
Proof. unfold etree_fromstring. calm_all. Qed.

#[local] Hint Resolve calm_emit calm_print calm_as_str calm_Singleton_call calm_dns_query
  calm_urlopen_read calm_check_cache_file calm_store_cache_file calm_update_authority
  calm_update_service calm_etree_fromstring : calm.

Lemma calm_validate_lsid : calm validate_lsid.
Proof. unfold validate_lsid. calm_all. Qed.

Lemma calm_set_service_url : calm set_service_url.
Proof. unfold set_service_url, loop_body. calm_all. Qed.

#[local] Hint Resolve calm_validate_lsid calm_set_service_url : calm.

Lemma calm_get_authority_part v : calm (get_authority_part v).
Proof. unfold get_authority_part. calm_all. Qed.

Lemma calm_extract_authority_url wsdl : calm (extract_authority_url wsdl).
Proof. unfold extract_authority_url. calm_all. Qed.

Lemma calm_extract_service_url wsdl : calm (extract_service_url wsdl).
Proof. unfold extract_service_url. calm_all. Qed.

#[local] Hint Resolve calm_get_authority_part calm_extract_authority_url
  calm_extract_service_url : calm.

Lemma calm_get_authority_wsdl : calm (get_authority_wsdl fromstring).
Proof. unfold get_authority_wsdl, cache_instance, etree_fromstring_val. calm_all. Qed.

Lemma calm_get_service_wsdl a n i : calm (get_service_wsdl fromstring a n i).
Proof. unfold get_service_wsdl, cache_instance, etree_fromstring_val. calm_all. Qed.

Lemma calm_get_data v : calm (get_data v).
Proof. unfold get_data. calm_all. Qed.

Lemma calm_get_metadata v : calm (get_metadata v).
Proof. unfold get_metadata. calm_all. Qed.

#[local] Hint Resolve calm_get_authority_wsdl calm_get_service_wsdl calm_get_data
  calm_get_metadata : calm.

Lemma calm_resolve_lsid : calm (resolve_lsid fromstring).
Proof.
  unfold resolve_lsid, discover, retrieve, get_authority_url, get_service_name, get_lsid.
  calm_all.
Qed.

Lemma resolve_lsid_no_raise (st : state) (e : exn) :
  (resolve_lsid fromstring st).1 <> Raise e.
Proof.
  unfold resolve_lsid, try_except.
  destruct ((bind (discover fromstring) (fun _ => retrieve)) st) as [[[]|e'|] st'];
    cbn; done.
Qed.

Lemma resolve_lsid_returns (st : state) :
  no_hang st -> (resolve_lsid fromstring st).1 = Ret tt.
Proof.
  intros Hh. destruct (calm_resolve_lsid st Hh) as [Hb _].
  pose proof (resolve_lsid_no_raise st) as Hraise.
  destruct (resolve_lsid fromstring st) as [[[]|e|] st']; cbn [fst] in *; try done.
  by destruct (Hraise e).
Qed.

End Calm.

(** ** How many network calls a resolution makes *)

Section Within.
Variable fromstring : bytes -> option Xml.element.

Lemma within_weaken {A} n k (m : M A) : within n m -> n <= k -> within k m.
Proof. intros Hm Hle st. destruct (Hm st) as (l & Hl & Hn). exists l. split; [done|lia]. Qed.

Lemma within_same {A} (m : M A) :
  (forall st, network_events (m st).2 = network_events st) -> within 0 m.
Proof. intros H st. exists []. by rewrite app_nil_r. Qed.

Lemma within_ret {A} (a : A) : within 0 (ret a).
Proof. by apply within_same. Qed.

Lemma within_raise {A} cls msg : within 0 (@raise A cls msg).
Proof. by apply within_same. Qed.

Lemma within_get : within 0 get.
Proof. by apply within_same. Qed.

Lemma within_ret_pair {A} (a : A) : within 0 (fun st => (Ret a, st)).
Proof. by apply within_same. Qed.

Lemma within_raise_pair {A} e : within 0 (fun st => (@Raise A e, st)).
Proof. by apply within_same. Qed.

Lemma within_blocked_pair {A} : within 0 (fun st => (@Blocked A, st)).
Proof. by apply within_same. Qed.

Lemma within_modify (f : state -> state) :
  (forall st, trace (f st) = trace st) -> within 0 (modify f).
Proof. intros Hf. apply within_same. intros st. apply network_events_frame, Hf. Qed.

Lemma within_bind {A B} n k (m : M A) (f : A -> M B) :
  within n m -> (forall a, within k (f a)) -> within (n + k) (bind m f).
Proof.
  intros Hm Hf st. unfold bind. destruct (Hm st) as (l & Hl & Hn).
  destruct (m st) as [[a|e|] st']; cbn [snd] in *.
  - destruct (Hf a st') as (l' & Hl' & Hn'). exists (l ++ l').
    rewrite Hl', Hl, <- app_assoc, length_app. split; [done|lia].
  - exists l. split; [done|lia].
  - exists l. split; [done|lia].
Qed.

(** The part of a budget [b] left after [n] calls. *)
Lemma within_bind_left {A B} n b (m : M A) (f : A -> M B) :
  within n m -> n <= b -> (forall a, within (b - n) (f a)) -> within b (bind m f).
Proof.
  intros Hm Hle Hf. apply (within_weaken (n + (b - n))); [|lia]. by apply within_bind.
Qed.

Lemma within_assoc {A B C} b (m : M A) (f : A -> M B) (k : B -> M C) :
  within b (bind m (fun x => bind (f x) k)) -> within b (bind (bind m f) k).
Proof. intros H st. rewrite bind_assoc_run. apply H. Qed.

Lemma within_try_except {A} n b (body : M A) catches handler :
  within n body -> n <= b -> (forall e, within (b - n) (handler e)) ->
  within b (try_except body catches handler).
Proof.
  intros Hb Hle Hh st. unfold try_except. destruct (Hb st) as (l & Hl & Hn).
  destruct (body st) as [[a|e|] st']; cbn [snd] in *; try (exists l; split; [done|lia]).
  destruct (catches (exn_class_of e)); [|exists l; split; [done|lia]].
  destruct (Hh e st') as (l' & Hl' & Hn'). exists (l ++ l').
  rewrite Hl', Hl, <- app_assoc, length_app. split; [done|lia].
Qed.

Lemma within_for_each {A} (l : list A) (body : A -> M unit) :
  (forall x, within 0 (body x)) -> within 0 (for_each l body).
Proof.
  intros Hb. induction l as [|x l IH]; cbn [for_each]; [apply within_ret|].
  apply (within_bind 0 0); [apply Hb | by intros _].
Qed.

Create HintDb within discriminated.
#[local] Hint Resolve within_ret within_raise within_get within_ret_pair within_raise_pair
  within_blocked_pair : within.

(** A goal [within b m] for a number [b]: the head of a bind is looked up
    among the lemmas, its calls are taken off the budget, and the rest goes
    on with what is left. *)
Ltac within_step :=
  first
    [ solve [eauto 1 with within nocore]
    | solve [eapply within_weaken; [eauto 1 with within nocore | lia]]
    | apply within_modify; intros ?; reflexivity
    | apply within_for_each; intros ?
    | match goal with
      | |- within _ (match ?x with _ => _ end) => destruct x
      | |- within _ (if ?x then _ else _) => destruct x
      | |- within _ (bind (match ?x with _ => _ end) _) => destruct x
      | |- within _ (bind (if ?x then _ else _) _) => destruct x
      | |- within _ (bind (bind _ _) _) => apply within_assoc
      end
    | eapply within_try_except;
        [solve [eauto 1 with within nocore] | lia | intros ?; cbn [Nat.sub]]
    | eapply within_bind_left;
        [solve [eauto 1 with within nocore] | lia | intros ?; cbn [Nat.sub]] ].

Ltac within_all := repeat within_step.

Lemma within_emit_print v : within 0 (emit (Print v)).
Proof.
  apply within_same. intros st. unfold emit, modify. cbn [snd].
  by rewrite network_events_snoc, app_nil_r.
Qed.

Lemma within_print v : within 0 (print v).
Proof. apply within_emit_print. Qed.

Lemma within_emit e : within 1 (emit e).
Proof.
  intros st. exists (if is_network e then [e] else []). unfold emit, modify. cbn [snd].
  rewrite network_events_snoc. split; [done|]. destruct (is_network e); cbn; lia.
Qed.

Lemma within_as_str cls v : within 0 (as_str cls v).
Proof. unfold as_str. within_all. Qed.

Lemma within_Singleton_call : within 0 Singleton_call.
Proof. unfold Singleton_call. within_all. Qed.

#[local] Hint Resolve within_print within_as_str within_Singleton_call : within.

Lemma within_dns_query q r : within 1 (dns_query q r).
Proof.
  unfold dns_query.
  apply (within_bind_left 1); [apply within_emit | lia | intros _; cbn [Nat.sub]].
  within_all.
Qed.

Lemma within_urlopen_read u t : within 1 (urlopen_read u t).
Proof.
  unfold urlopen_read.
  apply (within_bind_left 1); [apply within_emit | lia | intros _; cbn [Nat.sub]].
  within_all.
Qed.

Lemma within_check_cache_file s p n : within 0 (check_cache_file s p n).
Proof. apply within_same. intros st. by rewrite check_cache_file_run. Qed.

Lemma within_store_cache_file s p n b : within 0 (store_cache_file s p n b).
Proof. unfold store_cache_file. within_all. Qed.

Lemma within_update_authority f : within 0 (update_authority f).
Proof. unfold update_authority. within_all. Qed.

Lemma within_update_service f : within 0 (update_service f).
Proof. unfold update_service. within_all. Qed.

Lemma within_etree_fromstring b : within 0 (etree_fromstring fromstring b).
Proof. unfold etree_fromstring. within_all. Qed.

#[local] Hint Resolve within_dns_query within_urlopen_read within_check_cache_file
  within_store_cache_file within_update_authority within_update_service
  within_etree_fromstring : within.

Lemma within_validate_lsid : within 0 validate_lsid.
Proof. unfold validate_lsid. within_all. Qed.

Lemma within_loop_body d : within 0 (loop_body d).
Proof. unfold loop_body. within_all. Qed.

Lemma within_loop l : within 0 (for_each l loop_body).
Proof. apply within_for_each, within_loop_body. Qed.

#[local] Hint Resolve within_validate_lsid within_loop_body within_loop : within.

Lemma within_set_service_url : within 1 set_service_url.
Proof. unfold set_service_url. within_all. Qed.

#[local] Hint Resolve within_set_service_url : within.

Lemma within_get_authority_part v : within 1 (get_authority_part v).
Proof. unfold get_authority_part. within_all. Qed.

Lemma within_extract_authority_url wsdl : within 0 (extract_authority_url wsdl).
Proof. apply within_same. apply extract_authority_url_quiet. Qed.

Lemma within_extract_service_url wsdl : within 0 (extract_service_url wsdl).
Proof. apply within_same. apply extract_service_url_quiet. Qed.

#[local] Hint Resolve within_get_authority_part within_extract_authority_url
  within_extract_service_url : within.

Lemma within_get_authority_wsdl : within 1 (get_authority_wsdl fromstring).
Proof. unfold get_authority_wsdl, cache_instance, etree_fromstring_val. within_all. Qed.

Lemma within_get_service_wsdl a n i : within 1 (get_service_wsdl fromstring a n i).
Proof. unfold get_service_wsdl, cache_instance, etree_fromstring_val. within_all. Qed.

Lemma within_get_data v : within 1 (get_data v).
Proof. unfold get_data. within_all. Qed.

Lemma within_get_metadata v : within 1 (get_metadata v).
Proof. unfold get_metadata. within_all. Qed.

#[local] Hint Resolve within_get_authority_wsdl within_get_service_wsdl within_get_data
  within_get_metadata : within.

Lemma within_discover : within 3 (discover fromstring).
Proof. unfold discover, get_authority_url, get_service_name, get_lsid. within_all. Qed.

Lemma within_retrieve : within 2 retrieve.
Proof. unfold retrieve. within_all. Qed.

(** X15.  A resolution makes at most five network calls, three up to the
    service description and two for the payloads: nothing is asked
    twice. *)
Theorem resolve_lsid_within_five : within 5 (resolve_lsid fromstring).
Proof.
  unfold resolve_lsid.
  apply (within_try_except 5); [|lia|intros e; cbn [Nat.sub]; within_all].
  apply (within_bind 3 2); [apply within_discover | intros _; apply within_retrieve].
Qed.

End Within.

(** ** The resolution as a whole *)

Section Whole.
Variable fromstring : bytes -> option Xml.element.

(** X16.  A subject that the pattern refuses, or no subject at all, ends
    the resolution at once: the two lines of the [except] clause, no
    network call, nothing else changed. *)
Theorem resolve_lsid_of_invalid (st : state) :
  (forall s, lsid st = Some s -> Pattern.re_match Pattern.lsid_pattern s = false ->
     resolve_lsid fromstring st = (Ret tt, failure_lines not_well_formed st))
  /\ (lsid st = None ->
      resolve_lsid fromstring st = (Ret tt, failure_lines none_in_concatenation st)).
Proof.
  split.
  - intros s Hs Hm. unfold resolve_lsid, try_except, discover.
    rewrite bind_assoc_run.
    erewrite bind_raise_run; [reflexivity|].
    by rewrite (validate_lsid_run st s Hs), Hm.
  - intros Hs. unfold resolve_lsid, try_except, discover.
    rewrite bind_assoc_run.
    erewrite bind_raise_run; [reflexivity|].
    unfold validate_lsid. step reflexivity. by rewrite Hs.
Qed.

(** X17.  When the name server raises for the authority of a valid
    subject, the resolution ends after that one query, without any HTTP
    request and with the location as it was. *)
Theorem resolve_lsid_dns_failure (st : state) (s part : string) (e : exn) :
  lsid st = Some s ->
  Pattern.re_match Pattern.lsid_pattern s = true ->
  PyStr.split ":" s !! 2%nat = Some part ->
  dns_srv (net st) ("_lsid._tcp." +:+ part) = DnsRaise e ->
  let r := resolve_lsid fromstring st in
  r.1 = Ret tt
  /\ network_events r.2 = network_events st ++ [DnsQuery ("_lsid._tcp." +:+ part) "SRV"]
  /\ url_part (authority_of r.2) = Some part
  /\ service_url (authority_of r.2) = service_url (authority_of st)
  /\ fs r.2 = fs st.
Proof.
  intros Hs Hm Hpart Hdns. cbv zeta.
  set (st1 := set_trace (trace st ++ [valid_message]) st).
  set (st2 := said ("Authority part of LSID: " +:+ part)
                (set_authority (set_url_part (Some part) (authority_of st1)) st1)).
  set (st3 := set_trace (trace st2 ++ [DnsQuery ("_lsid._tcp." +:+ part) "SRV"]) st2).
  assert (Hrun : resolve_lsid fromstring st = (Ret tt, failure_lines e st3)).
  { unfold resolve_lsid, try_except, discover.
    assert (Hpartrun : get_authority_part (Some s) st1 = (Raise e, st3)).
    { unfold get_authority_part. step reflexivity. cbv zeta. rewrite Hpart.
      step reflexivity. step (apply print_run). fold st2.
      apply (set_service_url_dns_raise st2 part e); [reflexivity | exact Hdns]. }
    rewrite !bind_assoc_run.
    erewrite bind_ret_run by (rewrite (validate_lsid_run st s Hs), Hm; reflexivity).
    fold st1. rewrite !bind_assoc_run.
    erewrite bind_ret_run by reflexivity.
    cbv beta. rewrite !bind_assoc_run.
    assert (Hl : lsid st1 = Some s) by exact Hs. rewrite Hl.
    erewrite bind_raise_run by exact Hpartrun. reflexivity. }
  rewrite Hrun. cbn [fst snd]. split; [done|]. split; [|done].
  rewrite network_events_failure_lines. subst st3. rewrite network_events_snoc.
  cbn [is_network]. f_equal. subst st2. rewrite network_events_said.
  unfold network_events. cbn [trace set_authority]. subst st1. cbn [trace set_trace].
  by rewrite filter_app, app_nil_r.
Qed.

(** X18.  [main] ends with the line [Resolved LSID: ...] and returns, also
    when the resolution has failed: it can only block on an endpoint that
    hangs.  [print_lsid] runs outside the [try] block, so the statement is
    for runs whose lines are all ASCII, which no console refuses. *)
Theorem main_prints_resolved (subject : string) (st : state) :
  no_hang st ->
  forallb encodable (trace (main fromstring subject st).2) = true ->
  exists st', main fromstring subject st = (Ret tt, said ("Resolved LSID: " +:+ subject) st').
Proof.
  intros Hh _.
  set (st2 := set_lsid_field (Some subject)
                (set_service new_service
                   (set_authority new_authority
                      (set_lsid_field None (said "Resolving LSID ..." st))))).
  assert (Hmain : main fromstring subject st
                  = bind (resolve_lsid fromstring) (fun _ => print_lsid) st2).
  { unfold main. step (apply print_run). step reflexivity. step reflexivity. reflexivity. }
  assert (Hh2 : no_hang st2) by exact Hh.
  assert (Hl2 : lsid st2 = Some subject) by reflexivity.
  pose proof (resolve_lsid_returns fromstring st2 Hh2) as Hret.
  destruct (steady_resolve_lsid fromstring st2) as (Hl3 & _).
  destruct (resolve_lsid fromstring st2) as [r st3] eqn:Hres. cbn [fst snd] in *. subst r.
  exists st3. rewrite Hmain. step (exact Hres). unfold print_lsid.
  step reflexivity. rewrite Hl3, Hl2. step reflexivity. apply print_run.
Qed.

End Whole.

Section WholeExamples.
Import Sample.

Lemma resolve_lsid_of_invalid_witness :
  resolve_lsid fromstring (holding "urn:lsrsp:021946")
  = (Ret tt, failure_lines not_well_formed (holding "urn:lsrsp:021946")).
Proof.
  apply (proj1 (resolve_lsid_of_invalid fromstring (holding "urn:lsrsp:021946"))
           "urn:lsrsp:021946"); reflexivity.
Defined.

Lemma resolve_lsid_dns_failure_witness :
  network_events (resolve_lsid fromstring (holding "urn:lsid:example.com:a:b")).2
  = [DnsQuery "_lsid._tcp.example.com" "SRV"].
Proof.
  destruct (resolve_lsid_dns_failure fromstring (holding "urn:lsid:example.com:a:b")
              "urn:lsid:example.com:a:b" "example.com"
              (Exn DNSException "The DNS query name does not exist"))
    as (_ & Hev & _); [reflexivity | vm_compute; reflexivity | reflexivity | reflexivity |].
  exact Hev.
Defined.

Lemma main_prints_resolved_witness :
  exists st',
    main fromstring "urn:lsrsp:021946"
      (process ∅ 1000 (network_of (HttpRaise unreachable) (HttpRaise unreachable)))
    = (Ret tt, said "Resolved LSID: urn:lsrsp:021946" st').
Proof.
  apply (main_prints_resolved fromstring "urn:lsrsp:021946").
  - intros url. cbn [net process network_of http].
    repeat (destruct (String.eqb url _); [discriminate|]). discriminate.
  - vm_compute. reflexivity.
Defined.

End WholeExamples.

(** ** A download serves the next fetch *)

Section Refetch.
Variable fromstring : bytes -> option Xml.element.



End Refetch.

Section RefetchExamples.
Import Sample.


End RefetchExamples.

(** ** One service description per authority *)

Section Shared.
Variable fromstring : bytes -> option Xml.element.



(** X21.  A new [Resolver] does not make a new cache: where the class
    attribute holds an instance, it holds the same one after a whole run of
    [main], and the property of any owner returns it. *)
Theorem main_keeps_the_cache {B : Type} (y : B) (subject : string) (c : nat) (st : state) :
  Cache_instance st = Some c ->
  Cache_instance (main fromstring subject st).2 = Some c
  /\ (cache_instance y (main fromstring subject st).2).1 = Ret c.
Proof.
  intros Hc.
  assert (Hkeep : keeps c (main fromstring subject)).
  { unfold main, new_resolver, set_lsid, print_lsid.
    repeat first
      [ apply keeps_resolve_lsid | apply keeps_print | apply keeps_as_str | apply keeps_get
      | apply keeps_modify; intros ?; reflexivity
      | apply keeps_bind; [|intros ?] ]. }
  specialize (Hkeep st Hc). split; [exact Hkeep|].
  unfold cache_instance. by rewrite (Singleton_call_again _ c Hkeep).
Qed.

End Shared.

Section SharedExamples.
Import Sample.


Lemma main_keeps_the_cache_witness :
  let st := discovered (HttpBody "data") (HttpBody "metadata") in
  exists c,
    Cache_instance st = Some c
    /\ (cache_instance new_service (main fromstring "urn:lsrsp:021946" st).2).1 = Ret c.
Proof.
  cbv zeta. exists 0. split; [vm_compute; reflexivity|].
  apply (main_keeps_the_cache fromstring new_service "urn:lsrsp:021946" 0
           (discovered (HttpBody "data") (HttpBody "metadata"))).
  vm_compute. reflexivity.
Defined.

End SharedExamples.
